(** * gl-util: a shallow embedding of [src/gl-util.ts]

    The module is one closure, [initGL], over a WebGL2 context [gl] and two
    tracked variables, [currentProgram] and [currentVao].  Every helper is a
    synchronous sequence of calls on [gl].  The embedding threads one [State]
    that holds

    - the calls issued on the native context, oldest first ([trace]);
    - the lines written with [console.warn] ([console]);
    - the closure's variables ([currentProgram], [currentVao], [memoized]);
    - what the helpers read back from the context (the shader objects);
    - two allocators: native handles and JavaScript object identities.

    Helpers are written in a state-and-exception monad [M], so that each
    definition can be read next to the TypeScript function of the same name. *)

From Stdlib Require Import ZArith Lia String Ascii.
From stdpp Require Import base option list gmap.

(** ** JavaScript values *)

(** A JavaScript string is a sequence of UTF-16 code units. *)
Abbreviation JsString := (list N) (only parsing).

(** An ASCII literal as a JavaScript string. *)
Definition js (s : string) : JsString :=
  List.map N_of_ascii (list_ascii_of_string s).

(** ECMAScript's WhiteSpace and LineTerminator code points: what
    [String.prototype.trim] removes. *)
Definition isWhiteSpace (c : N) : bool :=
  List.existsb (N.eqb c)
    [ 0x0009; 0x000A; 0x000B; 0x000C; 0x000D; 0x0020; 0x00A0; 0x1680;
      0x2000; 0x2001; 0x2002; 0x2003; 0x2004; 0x2005; 0x2006; 0x2007;
      0x2008; 0x2009; 0x200A; 0x2028; 0x2029; 0x202F; 0x205F; 0x3000;
      0xFEFF ]%N.

Fixpoint trimStart (s : JsString) : JsString :=
  match s with
  | c :: s' => if isWhiteSpace c then trimStart s' else s
  | [] => []
  end.

Definition trimEnd (s : JsString) : JsString :=
  rev (trimStart (rev s)).

(** [String.prototype.trim] *)
Definition trim (s : JsString) : JsString := trimEnd (trimStart s).

(** [ToInt32] on an integral Number: reduce modulo 2^32 into
    [-2^31, 2^31). *)
Definition toInt32 (x : Z) : Z :=
  ((x + 2 ^ 31) mod 2 ^ 32 - 2 ^ 31)%Z.

(** The [<<] operator: both operands through [ToInt32]/[ToUint32], the shift
    count masked to five bits, the result wrapped to 32 bits. *)
Definition shl (x n : Z) : Z :=
  toInt32 (Z.shiftl (toInt32 x) (Z.land n 31)).

(** ** Native handles

    WebGL objects are opaque; two handles are the same object when their
    numbers agree. *)

Record WebGLProgram := ProgramHandle { program_no : nat }.
Record WebGLVertexArrayObject := VaoHandle { vao_no : nat }.
Record WebGLShader := ShaderHandle { shader_no : nat }.
Record WebGLBuffer := BufferHandle { buffer_no : nat }.
Record WebGLTexture := TextureHandle { texture_no : nat }.
Record WebGLUniformLocation := UniformHandle { uniform_no : nat }.

#[global] Instance WebGLProgram_eq_dec : EqDecision WebGLProgram.
Proof. solve_decision. Defined.
#[global] Instance WebGLVertexArrayObject_eq_dec :
  EqDecision WebGLVertexArrayObject.
Proof. solve_decision. Defined.
#[global] Instance WebGLShader_eq_dec : EqDecision WebGLShader.
Proof. solve_decision. Defined.
#[global] Instance WebGLBuffer_eq_dec : EqDecision WebGLBuffer.
Proof. solve_decision. Defined.
#[global] Instance WebGLTexture_eq_dec : EqDecision WebGLTexture.
Proof. solve_decision. Defined.
#[global] Instance WebGLUniformLocation_eq_dec :
  EqDecision WebGLUniformLocation.
Proof. solve_decision. Defined.

(** [GLenum] values are numbers. *)
Abbreviation GLenum := Z (only parsing).
Abbreviation GLBufferTarget := Z (only parsing).
Abbreviation GLTextureTarget := Z (only parsing).
Abbreviation GLBufferUsage := Z (only parsing).

(** Enumerants of [WebGL2RenderingContext] the module names; their values
    are fixed by the WebGL interface definition. *)
Module gl.
Definition DEPTH_BUFFER_BIT : GLenum := 0x0100%Z.
Definition COLOR_BUFFER_BIT : GLenum := 0x4000%Z.
Definition LESS : GLenum := 0x0201%Z.
Definition SRC_ALPHA : GLenum := 0x0302%Z.
Definition ONE_MINUS_SRC_ALPHA : GLenum := 0x0303%Z.
Definition DEPTH_TEST : GLenum := 0x0B71%Z.
Definition BLEND : GLenum := 0x0BE2%Z.
Definition SCISSOR_TEST : GLenum := 0x0C11%Z.
Definition INT : GLenum := 0x1404%Z.
Definition FLOAT : GLenum := 0x1406%Z.
Definition TEXTURE_MIN_LOD : GLenum := 0x813A%Z.
Definition TEXTURE_MAX_LOD : GLenum := 0x813B%Z.
Definition TEXTURE0 : GLenum := 0x84C0%Z.
Definition ARRAY_BUFFER : GLenum := 0x8892%Z.
Definition STATIC_DRAW : GLenum := 0x88E4%Z.
Definition FRAGMENT_SHADER : GLenum := 0x8B30%Z.
Definition VERTEX_SHADER : GLenum := 0x8B31%Z.
Definition COMPILE_STATUS : GLenum := 0x8B81%Z.
End gl.

(** ** Typed arrays *)

(** [typedArrayConstructors] *)
Inductive TypedArrayConstructor :=
| Uint8Array | Uint16Array | Uint32Array | BigUint64Array
| Int8Array | Int16Array | Int32Array | BigInt64Array
| Float32Array | Float64Array.

#[global] Instance TypedArrayConstructor_eq_dec :
  EqDecision TypedArrayConstructor.
Proof. solve_decision. Defined.

Definition typedArrayConstructors : list TypedArrayConstructor :=
  [ Uint8Array; Uint16Array; Uint32Array; BigUint64Array;
    Int8Array; Int16Array; Int32Array; BigInt64Array;
    Float32Array; Float64Array ].

Definition BYTES_PER_ELEMENT (c : TypedArrayConstructor) : Z :=
  match c with
  | Uint8Array | Int8Array => 1
  | Uint16Array | Int16Array => 2
  | Uint32Array | Int32Array | Float32Array => 4
  | BigUint64Array | BigInt64Array | Float64Array => 8
  end%Z.

(** A typed array is a view: an object of its own ([ta_object] is its
    identity) looking at [ta_length] elements of the array buffer
    [ta_buffer] from byte [ta_byteOffset] on. *)
Record TypedArray := mkTypedArray {
  ta_object : nat;
  ta_constructor : TypedArrayConstructor;
  ta_buffer : nat;
  ta_byteOffset : Z;
  ta_length : Z
}.

#[global] Instance TypedArray_eq_dec : EqDecision TypedArray.
Proof. solve_decision. Defined.

(** The [{ begin, end, count }] argument of the range functions; the fields
    are taken to hold integral Numbers. *)
Record Range := mkRange {
  range_begin : Z;
  range_end : Z;
  range_count : Z
}.

(** ** Calls on the context *)

Inductive GLCall :=
| GetExtension (name : JsString)
| Enable (cap : GLenum)
| DepthFunc (func : GLenum)
| DepthMask (flag : bool)
| BlendFunc (sfactor dfactor : GLenum)
| Clear (mask : Z)
| GetUniformLocation (program : WebGLProgram) (name : JsString)
| CreateProgram (result : WebGLProgram)
| AttachShader (program : WebGLProgram) (shader : WebGLShader)
| LinkProgram (program : WebGLProgram)
| UseProgram (program : WebGLProgram)
| BindVertexArray (vao : WebGLVertexArrayObject)
| CreateShader (type : GLenum) (result : WebGLShader)
| ShaderSource (shader : WebGLShader) (source : JsString)
| CompileShader (shader : WebGLShader)
| GetShaderParameter (shader : WebGLShader) (pname : GLenum)
| GetShaderInfoLog (shader : WebGLShader)
| DeleteShader (shader : WebGLShader)
| GetAttribLocation (program : WebGLProgram) (name : JsString)
| BindBuffer (target : GLenum) (buffer : option WebGLBuffer)
| BindAttribLocation (program : WebGLProgram) (index : Z) (name : JsString)
| EnableVertexAttribArray (index : Z)
| CreateBuffer (result : WebGLBuffer)
| DeleteBuffer (buffer : WebGLBuffer)
| CreateTexture (result : WebGLTexture)
| BindTexture (target : GLenum) (texture : WebGLTexture)
| TexParameterf (target pname : GLenum) (param : Z)
| TexParameteri (target pname : GLenum) (param : Z)
| DeleteTexture (texture : WebGLTexture)
| ActiveTexture (texture : GLenum)
| Uniform1i (location : option WebGLUniformLocation) (x : Z)
| CreateVertexArray (result : WebGLVertexArrayObject)
| BufferDataSize (target : GLenum) (size : Z) (usage : GLenum)
| BufferData (target : GLenum) (data : TypedArray) (usage : GLenum)
| BufferSubData (target : GLenum) (offset : Z) (data : TypedArray)
| VertexAttribDivisor (index divisor : Z)
| VertexAttribIPointer (index size : Z) (type : option GLenum)
    (stride offset : Z)
| VertexAttribPointer (index size : Z) (type : option GLenum)
    (normalized : bool) (stride offset : Z).

(** What the context remembers of a shader object. *)
Record ShaderObject := mkShaderObject {
  shader_type : GLenum;
  shader_source : JsString;
  shader_compile_status : bool;
  shader_info_log : JsString
}.

(** ** The state *)

Record State := mkState {
  trace : list GLCall;
  console : list (JsString * JsString);
  nextHandle : nat;
  shaderObjects : gmap nat ShaderObject;
  currentProgram : option WebGLProgram;
  currentVao : option WebGLVertexArrayObject;
  nextObject : nat;
  memoized : gmap nat (gmap Z TypedArray)
}.

Definition set_trace (f : list GLCall → list GLCall) (s : State) : State :=
  mkState (f (trace s)) (console s) (nextHandle s) (shaderObjects s)
    (currentProgram s) (currentVao s) (nextObject s) (memoized s).

Definition set_console
    (f : list (JsString * JsString) → list (JsString * JsString))
    (s : State) : State :=
  mkState (trace s) (f (console s)) (nextHandle s) (shaderObjects s)
    (currentProgram s) (currentVao s) (nextObject s) (memoized s).

Definition set_nextHandle (f : nat → nat) (s : State) : State :=
  mkState (trace s) (console s) (f (nextHandle s)) (shaderObjects s)
    (currentProgram s) (currentVao s) (nextObject s) (memoized s).

Definition set_shaderObjects
    (f : gmap nat ShaderObject → gmap nat ShaderObject) (s : State) : State :=
  mkState (trace s) (console s) (nextHandle s) (f (shaderObjects s))
    (currentProgram s) (currentVao s) (nextObject s) (memoized s).

Definition set_currentProgram (p : WebGLProgram) (s : State) : State :=
  mkState (trace s) (console s) (nextHandle s) (shaderObjects s)
    (Some p) (currentVao s) (nextObject s) (memoized s).

Definition set_currentVao (v : WebGLVertexArrayObject) (s : State) : State :=
  mkState (trace s) (console s) (nextHandle s) (shaderObjects s)
    (currentProgram s) (Some v) (nextObject s) (memoized s).

Definition set_nextObject (f : nat → nat) (s : State) : State :=
  mkState (trace s) (console s) (nextHandle s) (shaderObjects s)
    (currentProgram s) (currentVao s) (f (nextObject s)) (memoized s).

Definition set_memoized
    (f : gmap nat (gmap Z TypedArray) → gmap nat (gmap Z TypedArray))
    (s : State) : State :=
  mkState (trace s) (console s) (nextHandle s) (shaderObjects s)
    (currentProgram s) (currentVao s) (nextObject s) (f (memoized s)).

(** The two tracked variables of the closure. *)
Definition tracked (s : State) :
    option WebGLProgram * option WebGLVertexArrayObject :=
  (currentProgram s, currentVao s).

(** ** The monad: state, and completion by value or by [throw] *)

Inductive JsError :=
| TypeError (message : JsString)
| Error (message : JsString)
| SuppressedError (error suppressed : JsError).

Inductive Completion (A : Type) :=
| Normal (value : A)
| Throw (error : JsError).
Arguments Normal {A} value.
Arguments Throw {A} error.

Definition M (A : Type) : Type := State → Completion A * State.

Definition ret {A} (a : A) : M A := fun s => (Normal a, s).

Definition throw {A} (e : JsError) : M A := fun s => (Throw e, s).

Definition bind {A B} (m : M A) (k : A → M B) : M B := fun s =>
  match m s with
  | (Normal a, s') => k a s'
  | (Throw e, s') => (Throw e, s')
  end.

Notation "x <- m ;; k" := (bind m (fun x => k))
  (at level 100, m at next level, right associativity).
Notation "m ;;; k" := (bind m (fun _ => k))
  (at level 100, right associativity).

(** An object with a [Symbol.dispose] method. *)
Definition Disposable : Type := M unit.

(** [using _ = d] at the head of a block: when the block completes, by value
    or by [throw], the resource is disposed of; [undefined] is not. *)
Definition usingResource {A} (d : option Disposable) (body : M A) : M A :=
  fun s =>
  let '(r, s1) := body s in
  match d with
  | None => (r, s1)
  | Some dispose =>
      match dispose s1, r with
      | (Normal _, s2), _ => (r, s2)
      | (Throw e, s2), Normal _ => (Throw e, s2)
      | (Throw e, s2), Throw e0 => (Throw (SuppressedError e e0), s2)
      end
  end.

(** A [for ... of] loop over a list whose body returns nothing. *)
Fixpoint forOf {A} (l : list A) (body : A → M unit) : M unit :=
  match l with
  | [] => ret tt
  | x :: l' => body x ;;; forOf l' body
  end.

(** [console.warn(message, name)] *)
Definition console_warn (message name : JsString) : M unit := fun s =>
  (Normal tt, set_console (fun c => c ++ [(message, name)]) s).

(** One call on the context that returns nothing. *)
Definition call (c : GLCall) : M unit := fun s =>
  (Normal tt, set_trace (fun t => t ++ [c]) s).

(** A fresh native handle. *)
Definition freshHandle : M nat := fun s =>
  (Normal (nextHandle s), set_nextHandle S s).

(** A fresh JavaScript object. *)
Definition freshObject : M nat := fun s =>
  (Normal (nextObject s), set_nextObject S s).

(** Reading and writing the closure's variables. *)
Definition reads {A} (f : State → A) : M A := fun s => (Normal (f s), s).

Definition modify (f : State → State) : M unit := fun s => (Normal tt, f s).

(** [x ?? d] *)
Definition nullish {A} (x : option A) (d : A) : A :=
  match x with Some a => a | None => d end.

(** ** Objects used as records

    An object used as a dictionary is the list of its entries in the order
    [Object.entries] and [Object.values] enumerate them. *)
Definition JsRecord (V : Type) : Type := list (JsString * V).

(** [obj[name] = v]: an own property keeps its place, a new one goes last. *)
Fixpoint record_set {V} (name : JsString) (v : V) (obj : JsRecord V) :
    JsRecord V :=
  match obj with
  | [] => [(name, v)]
  | (k, w) :: obj' =>
      if decide (k = name) then (k, v) :: obj'
      else (k, w) :: record_set name v obj'
  end.

Definition Object_values {V} (obj : JsRecord V) : list V := List.map snd obj.

(** ** The module's types *)

(** [GLBuffer]: a descriptor object ([buffer_object] is its identity, the key
    of the [memoized] weak map). *)
Record GLBuffer := mkGLBuffer {
  buffer_object : nat;
  buffer_target : GLBufferTarget;
  buffer_usage : GLBufferUsage;
  buffer_buffer : WebGLBuffer;
  buffer_data : option TypedArray;
  buffer_ptr : Z;
  buffer_dispose : M unit
}.

(** [GLTexture].  The uniform slot is what the [uniforms] map handed out,
    which is [null] for a name the program does not have. *)
Record GLTexture := mkGLTexture {
  texture_target : GLTextureTarget;
  texture_uniform : option WebGLUniformLocation;
  texture_texture : WebGLTexture;
  texture_dispose : M unit
}.

(** [GLShaders] *)
Record GLShaders := mkGLShaders {
  vertex : WebGLShader;
  fragment : WebGLShader
}.

(** A shader source: a string, or a function of the context giving one. *)
Inductive ShaderSrc :=
| SrcString (text : JsString)
| SrcFunction (f : State → JsString).

Record ShaderSources := mkShaderSources {
  src_vertex : ShaderSrc;
  src_fragment : ShaderSrc
}.

(** [GLAttribFn]: called with the attribute's index, the target and the
    usage; it issues calls of its own and returns the data it uploaded. *)
Definition GLAttribFn : Type :=
  Z → GLBufferTarget → GLBufferUsage → M (option TypedArray).

(** [GLAttribParam] *)
Definition GLAttribParam : Type :=
  (GLBufferTarget * GLAttribFn * option GLBufferUsage)%type.

(** What [addVertexAttrib] returns: [{ buffer }] or [{ buffer, data }]. *)
Record VertexAttrib := mkVertexAttrib {
  attrib_buffer : WebGLBuffer;
  attrib_data : option TypedArray
}.

(** The second argument of [attrib]: the data, or a function giving it. *)
Inductive FnOrData :=
| DataValue (data : TypedArray)
| DataFunction (fn : M TypedArray).

(** [%TypedArray%.prototype.subarray]: a new view on the same array buffer;
    negative bounds count from the end, and both are clamped. *)
Definition subarray (a : TypedArray) (begin end' : Z) : M TypedArray :=
  let srcLength := ta_length a in
  let beginIndex :=
    if (begin <? 0)%Z then Z.max (srcLength + begin) 0
    else Z.min begin srcLength in
  let endIndex :=
    if (end' <? 0)%Z then Z.max (srcLength + end') 0
    else Z.min end' srcLength in
  let newLength := Z.max (endIndex - beginIndex) 0 in
  let elementSize := BYTES_PER_ELEMENT (ta_constructor a) in
  let beginByteOffset := (ta_byteOffset a + beginIndex * elementSize)%Z in
  object <- freshObject ;;
  ret (mkTypedArray object (ta_constructor a) (ta_buffer a)
         beginByteOffset newLength).

(** [data.subarray(begin, end)] where [data] may be [undefined]. *)
Definition data_subarray (data : option TypedArray) (begin end' : Z) :
    M TypedArray :=
  match data with
  | Some a => subarray a begin end'
  | None =>
      throw (TypeError (js "Cannot read properties of undefined"))
  end.

(** ** The context

    The answers of the native context that the module cannot compute are
    parameters: where a program has a uniform or an attribute, whether a
    source text compiles as a shader of a given type, and the compiler's
    info log for it.  Calls that create an object return one: the source
    asserts so with [!]. *)
Section Context.

Variable uniformLocationOf :
  WebGLProgram → JsString → option WebGLUniformLocation.
Variable attribLocationOf : WebGLProgram → JsString → Z.
Variable compiles : GLenum → JsString → bool.
Variable infoLogOf : GLenum → JsString → JsString.

(** A [WebGLProgram] parameter does not accept [undefined]. *)
Definition notAProgram : JsError :=
  TypeError (js "parameter 1 is not of type 'WebGLProgram'").

Definition gl_getUniformLocation (program : option WebGLProgram)
    (name : JsString) : M (option WebGLUniformLocation) :=
  match program with
  | None => throw notAProgram
  | Some p => call (GetUniformLocation p name) ;;; ret (uniformLocationOf p name)
  end.

Definition gl_getAttribLocation (program : option WebGLProgram)
    (name : JsString) : M Z :=
  match program with
  | None => throw notAProgram
  | Some p => call (GetAttribLocation p name) ;;; ret (attribLocationOf p name)
  end.

Definition gl_bindAttribLocation (program : option WebGLProgram)
    (index : Z) (name : JsString) : M unit :=
  match program with
  | None => throw notAProgram
  | Some p => call (BindAttribLocation p index name)
  end.

Definition gl_createProgram : M WebGLProgram :=
  h <- freshHandle ;;
  call (CreateProgram (ProgramHandle h)) ;;; ret (ProgramHandle h).

Definition gl_createBuffer : M WebGLBuffer :=
  h <- freshHandle ;;
  call (CreateBuffer (BufferHandle h)) ;;; ret (BufferHandle h).

Definition gl_createTexture : M WebGLTexture :=
  h <- freshHandle ;;
  call (CreateTexture (TextureHandle h)) ;;; ret (TextureHandle h).

Definition gl_createVertexArray : M WebGLVertexArrayObject :=
  h <- freshHandle ;;
  call (CreateVertexArray (VaoHandle h)) ;;; ret (VaoHandle h).

Definition gl_createShader (type : GLenum) : M WebGLShader :=
  h <- freshHandle ;;
  modify (set_shaderObjects <[h := mkShaderObject type [] false []]>) ;;;
  call (CreateShader type (ShaderHandle h)) ;;;
  ret (ShaderHandle h).

Definition gl_shaderSource (shader : WebGLShader) (source : JsString) :
    M unit :=
  call (ShaderSource shader source) ;;;
  modify (set_shaderObjects (alter
    (fun o => mkShaderObject (shader_type o) source
                (shader_compile_status o) (shader_info_log o))
    (shader_no shader))).

Definition gl_compileShader (shader : WebGLShader) : M unit :=
  call (CompileShader shader) ;;;
  modify (set_shaderObjects (alter
    (fun o => mkShaderObject (shader_type o) (shader_source o)
                (compiles (shader_type o) (shader_source o))
                (infoLogOf (shader_type o) (shader_source o)))
    (shader_no shader))).

(** [gl.getShaderParameter(shader, pname)], as the truth value the caller
    tests: the compile status for [COMPILE_STATUS]. *)
Definition gl_getShaderParameter (shader : WebGLShader) (pname : GLenum) :
    M bool :=
  call (GetShaderParameter shader pname) ;;;
  o <- reads (fun s => shaderObjects s !! shader_no shader) ;;
  ret (match o with
       | Some o => bool_decide (pname = gl.COMPILE_STATUS)
                     && shader_compile_status o
       | None => false
       end).

Definition gl_getShaderInfoLog (shader : WebGLShader) : M JsString :=
  call (GetShaderInfoLog shader) ;;;
  o <- reads (fun s => shaderObjects s !! shader_no shader) ;;
  ret (match o with Some o => shader_info_log o | None => [] end).

(** ** [initGL]

    The calls made on the fresh context; the closure's variables start
    undefined and the weak map empty.  [glReset] belongs to the vendored
    gl-reset module, and what it does to the context is not modelled. *)
Definition newContext : State :=
  mkState [] [] 0 ∅ None None 0 ∅.

Definition initGL : M unit :=
  call (GetExtension (js "EXT_color_buffer_float")) ;;;
  call (GetExtension (js "OES_texture_float_linear")) ;;;
  call (GetExtension (js "OES_standard_derivatives")) ;;;
  call (Enable gl.DEPTH_TEST) ;;;
  call (Enable gl.SCISSOR_TEST) ;;;
  call (DepthFunc gl.LESS) ;;;
  call (DepthMask false) ;;;
  call (Enable gl.BLEND) ;;;
  call (BlendFunc gl.SRC_ALPHA gl.ONE_MINUS_SRC_ALPHA) ;;;
  call (Clear (Z.lor gl.COLOR_BUFFER_BIT gl.DEPTH_BUFFER_BIT)).

(** [uniforms[name]]: the proxy's [get] trap. *)
Definition uniforms (name : JsString) : M (option WebGLUniformLocation) :=
  program <- reads currentProgram ;;
  uniform <- gl_getUniformLocation program name ;;
  match uniform with
  | None => console_warn (js "Uniform not found or not in use:") name
  | Some _ => ret tt
  end ;;;
  ret uniform.

Definition useProgram (program : WebGLProgram) : M unit :=
  current <- reads currentProgram ;;
  if decide (Some program ≠ current) then
    modify (set_currentProgram program) ;;;
    call (UseProgram program)
  else ret tt.

Definition useVao (vao : WebGLVertexArrayObject) : M unit :=
  current <- reads currentVao ;;
  if decide (Some vao ≠ current) then
    modify (set_currentVao vao) ;;;
    call (BindVertexArray vao)
  else ret tt.

Definition use (webglProgram : WebGLProgram) (vao : WebGLVertexArrayObject) :
    M unit :=
  useProgram webglProgram ;;;
  useVao vao.

Definition createProgram (shaders : GLShaders) : M WebGLProgram :=
  program <- gl_createProgram ;;
  call (AttachShader program (vertex shaders)) ;;;
  call (AttachShader program (fragment shaders)) ;;;
  call (LinkProgram program) ;;;
  useProgram program ;;;
  ret program.

(** [typeof src === 'function' ? src(gl) : src] *)
Definition srcText (src : ShaderSrc) : M JsString :=
  match src with
  | SrcFunction f => reads f
  | SrcString text => ret text
  end.

Definition createShader (type : GLenum) (src : ShaderSrc) : M WebGLShader :=
  shader <- gl_createShader type ;;
  text <- srcText src ;;
  gl_shaderSource shader (trim text) ;;;
  gl_compileShader shader ;;;
  status <- gl_getShaderParameter shader gl.COMPILE_STATUS ;;
  if negb status then
    log <- gl_getShaderInfoLog shader ;;
    throw (Error log)
  else ret shader.

Definition createShaders (src : ShaderSources) : M GLShaders :=
  v <- createShader gl.VERTEX_SHADER (src_vertex src) ;;
  f <- createShader gl.FRAGMENT_SHADER (src_fragment src) ;;
  ret (mkGLShaders v f).

Definition deleteShaders (shaders : GLShaders) : M unit :=
  call (DeleteShader (vertex shaders)) ;;;
  call (DeleteShader (fragment shaders)).

Definition bindVertexAttribBuffer (target : GLBufferTarget)
    (buffer : WebGLBuffer) (name : JsString) : M (option Z) :=
  program <- reads currentProgram ;;
  index <- gl_getAttribLocation program name ;;
  if decide (index = (-1)%Z) then
    console_warn (js "Attribute not found or not in use:") name ;;;
    ret None
  else
    call (BindBuffer target (Some buffer)) ;;;
    gl_bindAttribLocation program index name ;;;
    call (EnableVertexAttribArray index) ;;;
    ret (Some index).

(** [bufferDisposables]: one entry, under [gl.ARRAY_BUFFER]. *)
Definition bufferDisposables (target : GLenum) : option Disposable :=
  if decide (target = gl.ARRAY_BUFFER) then
    Some (call (BindBuffer gl.ARRAY_BUFFER None))
  else None.

Definition useBuffer (target : GLBufferTarget) (buffer : WebGLBuffer) :
    M (option Disposable) :=
  call (BindBuffer target (Some buffer)) ;;;
  ret (bufferDisposables target).

Definition useArrayBuffer (buffer : WebGLBuffer) : M (option Disposable) :=
  call (BindBuffer gl.ARRAY_BUFFER (Some buffer)) ;;;
  ret (bufferDisposables gl.ARRAY_BUFFER).

Definition addVertexAttrib (target : GLBufferTarget) (name : JsString)
    (attribFn : GLAttribFn) (usage : option GLBufferUsage) : M VertexAttrib :=
  buffer <- gl_createBuffer ;;
  d <- useBuffer target buffer ;;
  usingResource d (
    index <- bindVertexAttribBuffer target buffer name ;;
    match index with
    | None => ret (mkVertexAttrib buffer None)
    | Some index =>
        data <- attribFn index target (nullish usage gl.STATIC_DRAW) ;;
        ret (mkVertexAttrib buffer data)
    end).

(** The body of the loop of [addVertexAttribs], on one entry. *)
Definition addVertexAttribs_step (vertexAttribsBuffers : JsRecord GLBuffer)
    (entry : JsString * GLAttribParam) : M (JsRecord GLBuffer) :=
  let '(name, (target, attribFn, usage)) := entry in
  let usage := nullish usage gl.STATIC_DRAW in
  r <- addVertexAttrib target name attribFn (Some usage) ;;
  let buffer := attrib_buffer r in
  let data := attrib_data r in
  object <- freshObject ;;
  ret (record_set name
         (mkGLBuffer object target usage buffer data
            (nullish (ta_byteOffset <$> data) 0%Z)
            (call (DeleteBuffer buffer)))
         vertexAttribsBuffers).

Fixpoint addVertexAttribs_loop (entries : list (JsString * GLAttribParam))
    (vertexAttribsBuffers : JsRecord GLBuffer) : M (JsRecord GLBuffer) :=
  match entries with
  | [] => ret vertexAttribsBuffers
  | entry :: entries' =>
      acc <- addVertexAttribs_step vertexAttribsBuffers entry ;;
      addVertexAttribs_loop entries' acc
  end.

Definition addVertexAttribs (attribs : JsRecord GLAttribParam) :
    M (JsRecord GLBuffer) :=
  addVertexAttribs_loop attribs [].

Definition TEXTURE_MAX_ANISOTROPY_EXT : GLenum := 0x84FE%Z.

Definition texFloats : gset Z :=
  {[ TEXTURE_MAX_ANISOTROPY_EXT; gl.TEXTURE_MAX_LOD; gl.TEXTURE_MIN_LOD ]}.

(** [params] is keyed by enumerants and stands for [Object.entries(params)],
    the pairs in the order the loop meets them; a parameter's value is
    carried to the context as it is. *)
Definition createTexture (target : GLTextureTarget)
    (uniform : option WebGLUniformLocation) (params : list (GLenum * Z)) :
    M GLTexture :=
  texture <- gl_createTexture ;;
  call (BindTexture target texture) ;;;
  forOf params (fun '(name, param) =>
    if decide (name ∈ texFloats) then call (TexParameterf target name param)
    else call (TexParameteri target name param)) ;;;
  let dispose := call (DeleteTexture texture) in
  ret (mkGLTexture target uniform texture dispose).

Definition deleteTextures (textures : list GLTexture) : M unit :=
  forOf textures (fun texture => texture_dispose texture).

(** [for (let i = start; i < start + n; i++) body(i)] *)
Fixpoint forIndex (n : nat) (i : nat) (body : nat → M unit) : M unit :=
  match n with
  | 0 => ret tt
  | S n' => body i ;;; forIndex n' (S i) body
  end.

Definition activateTextures (textures : list GLTexture) : M unit :=
  forIndex (length textures) 0 (fun i =>
    match textures !! i with
    | Some t =>
        call (ActiveTexture (gl.TEXTURE0 + Z.of_nat i)%Z) ;;;
        call (BindTexture (texture_target t) (texture_texture t)) ;;;
        call (Uniform1i (texture_uniform t) (Z.of_nat i))
    | None => throw (TypeError (js "textures[i] is undefined"))
    end).

Definition createVertexArray : M WebGLVertexArrayObject :=
  vao <- gl_createVertexArray ;;
  call (BindVertexArray vao) ;;;
  ret vao.

Definition setBuffer (buffer : GLBuffer) (data : TypedArray)
    (usage : option GLBufferUsage) : M unit :=
  call (BindBuffer (buffer_target buffer) (Some (buffer_buffer buffer))) ;;;
  call (BufferData (buffer_target buffer) data
          (nullish usage (buffer_usage buffer))).

Definition deleteAttribs (attribs : JsRecord GLBuffer) : M unit :=
  forOf (Object_values attribs) (fun attrib => buffer_dispose attrib).

(** [offset] is the third argument after its default of 0 is applied. *)
Definition bufferSubData (attrib : GLBuffer) (data : TypedArray)
    (offset : Z) : M unit :=
  let buffer := buffer_buffer attrib in
  let target := buffer_target attrib in
  d <- useBuffer target buffer ;;
  usingResource d (call (BufferSubData target offset data)).

(** The locals [begin] and [end] of [getDataRange]. *)
Definition rangeBounds (range : Range) : Z * Z :=
  let r := range in
  let index := shl (range_begin r) 2 in
  let length := shl (range_count r) 2 in
  let begin := index in
  let end' := (index + length)%Z in
  (begin, end').

(** The local [hash] of [getDataRange]. *)
Definition rangeHash (range : Range) : Z :=
  let '(begin, end') := rangeBounds range in
  let PRIME := 31%Z in
  (begin * PRIME + end')%Z.

Definition getDataRange (attrib : GLBuffer) (range : Range) : M TypedArray :=
  let '(begin, end') := rangeBounds range in
  let hash := rangeHash range in
  mem <- reads (fun s => memoized s !! buffer_object attrib) ;;
  mem <- match mem with
         | Some mem => ret mem
         | None =>
             modify (set_memoized <[buffer_object attrib := ∅]>) ;;; ret ∅
         end ;;
  match mem !! hash with
  | Some subarray => ret subarray
  | None =>
      subarray <- data_subarray (buffer_data attrib) begin end' ;;
      modify (set_memoized (alter <[hash := subarray]> (buffer_object attrib))) ;;;
      ret subarray
  end.

(** [bufferSubData(attrib, data)]: the offset takes its default. *)
Definition writeAttribRange (attrib : GLBuffer) (range : Range) : M unit :=
  data <- getDataRange attrib range ;;
  bufferSubData attrib data 0.

Definition typedCtorToGLTypeMap (c : TypedArrayConstructor) : option GLenum :=
  match c with
  | Float32Array => Some gl.FLOAT
  | Int32Array => Some gl.INT
  | _ => None
  end.

Definition intPointerTypes (c : TypedArrayConstructor) : bool :=
  bool_decide (c = Int32Array).

(** [divisor] is the third argument after its default of 0 is applied. *)
Definition attrib (size : Z) (fnOrData : FnOrData) (divisor : Z) :
    GLAttribFn := fun index target usage =>
  data <- match fnOrData with
          | DataFunction fn => fn
          | DataValue data => ret data
          end ;;
  call (BufferDataSize target
          (ta_length data * BYTES_PER_ELEMENT (ta_constructor data))%Z
          usage) ;;;
  call (BufferData target data usage) ;;;
  (if decide (divisor ≠ 0%Z) then call (VertexAttribDivisor index divisor)
   else ret tt) ;;;
  let type := typedCtorToGLTypeMap (ta_constructor data) in
  (if intPointerTypes (ta_constructor data) then
     call (VertexAttribIPointer index size type 0 0)
   else
     call (VertexAttribPointer index size type false 0 0)) ;;;
  ret (Some data).

(** ** Vocabulary of the properties *)

(** The calls [activateTextures] makes for the texture at index [i]. *)
Definition textureUnitCalls (i : nat) (t : GLTexture) : list GLCall :=
  [ ActiveTexture (gl.TEXTURE0 + Z.of_nat i)%Z;
    BindTexture (texture_target t) (texture_texture t);
    Uniform1i (texture_uniform t) (Z.of_nat i) ].

(** A string made of white space only. *)
Definition blank (s : JsString) : Prop :=
  forallb isWhiteSpace s = true.

(** The text a source stands for, in the state it is asked in. *)
Definition sourceText (src : ShaderSrc) (s : State) : JsString :=
  match src with
  | SrcString text => text
  | SrcFunction f => f s
  end.

(** The text [createShader] hands to the compiler: that of the source,
    asked once the shader object exists, trimmed. *)
Definition compiledText (type : GLenum) (src : ShaderSrc) (s : State) :
    JsString :=
  trim (sourceText src (snd (gl_createShader type s))).

(** The call that sets one texture parameter. *)
Definition texParameterCall (target : GLTextureTarget) (entry : GLenum * Z) :
    GLCall :=
  if decide (entry.1 ∈ texFloats) then TexParameterf target entry.1 entry.2
  else TexParameteri target entry.1 entry.2.

(** A descriptor whose dispose function deletes its own native buffer. *)
Definition deletesOwnBuffer (d : GLBuffer) : Prop :=
  buffer_dispose d = call (DeleteBuffer (buffer_buffer d)).

(** A texture descriptor that [createTexture] returned. *)
Definition fromCreateTexture (t : GLTexture) : Prop :=
  ∃ target uniform params s,
    fst (createTexture target uniform params s) = Normal t.

(** A computation that leaves [currentProgram] and [currentVao] as they
    were, however it completes. *)
Definition keepsTracked {A} (m : M A) : Prop :=
  ∀ s, tracked (snd (m s)) = tracked s.

(** The operations [initGL] returns that this module defines itself, each
    with its arguments: twenty-one functions and the read of [uniforms].
    For [attrib] the operation is a call of the function it returns.  The
    vendored [reset] and the raw [gl] and [canvas] are not among them. *)
Inductive Operation :=
| OpActivateTextures (textures : list GLTexture)
| OpAddVertexAttrib (target : GLBufferTarget) (name : JsString)
    (attribFn : GLAttribFn) (usage : option GLBufferUsage)
| OpAddVertexAttribs (attribs : JsRecord GLAttribParam)
| OpAttrib (size : Z) (fnOrData : FnOrData) (divisor : Z)
    (index : Z) (target : GLBufferTarget) (usage : GLBufferUsage)
| OpBindVertexAttribBuffer (target : GLBufferTarget) (buffer : WebGLBuffer)
    (name : JsString)
| OpBufferSubData (attrib : GLBuffer) (data : TypedArray) (offset : Z)
| OpCreateProgram (shaders : GLShaders)
| OpCreateShader (type : GLenum) (src : ShaderSrc)
| OpCreateShaders (src : ShaderSources)
| OpCreateTexture (target : GLTextureTarget)
    (uniform : option WebGLUniformLocation) (params : list (GLenum * Z))
| OpCreateVertexArray
| OpDeleteAttribs (attribs : JsRecord GLBuffer)
| OpDeleteShaders (shaders : GLShaders)
| OpDeleteTextures (textures : list GLTexture)
| OpSetBuffer (buffer : GLBuffer) (data : TypedArray)
    (usage : option GLBufferUsage)
| OpUniforms (name : JsString)
| OpUse (webglProgram : WebGLProgram) (vao : WebGLVertexArrayObject)
| OpUseArrayBuffer (buffer : WebGLBuffer)
| OpUseBuffer (target : GLBufferTarget) (buffer : WebGLBuffer)
| OpUseProgram (program : WebGLProgram)
| OpUseVao (vao : WebGLVertexArrayObject)
| OpWriteAttribRange (attrib : GLBuffer) (range : Range).

(** The state an operation leaves, however it completes. *)
Definition exec (op : Operation) (s : State) : State :=
  match op with
  | OpActivateTextures textures => snd (activateTextures textures s)
  | OpAddVertexAttrib target name attribFn usage =>
      snd (addVertexAttrib target name attribFn usage s)
  | OpAddVertexAttribs attribs =>
      snd (addVertexAttribs attribs s)
  | OpAttrib size fnOrData divisor index target usage =>
      snd (attrib size fnOrData divisor index target usage s)
  | OpBindVertexAttribBuffer target buffer name =>
      snd (bindVertexAttribBuffer target buffer name s)
  | OpBufferSubData attrib data offset =>
      snd (bufferSubData attrib data offset s)
  | OpCreateProgram shaders => snd (createProgram shaders s)
  | OpCreateShader type src =>
      snd (createShader type src s)
  | OpCreateShaders src => snd (createShaders src s)
  | OpCreateTexture target uniform params =>
      snd (createTexture target uniform params s)
  | OpCreateVertexArray => snd (createVertexArray s)
  | OpDeleteAttribs attribs => snd (deleteAttribs attribs s)
  | OpDeleteShaders shaders => snd (deleteShaders shaders s)
  | OpDeleteTextures textures => snd (deleteTextures textures s)
  | OpSetBuffer buffer data usage => snd (setBuffer buffer data usage s)
  | OpUniforms name => snd (uniforms name s)
  | OpUse webglProgram vao => snd (use webglProgram vao s)
  | OpUseArrayBuffer buffer => snd (useArrayBuffer buffer s)
  | OpUseBuffer target buffer => snd (useBuffer target buffer s)
  | OpUseProgram program => snd (useProgram program s)
  | OpUseVao vao => snd (useVao vao s)
  | OpWriteAttribRange attrib range => snd (writeAttribRange attrib range s)
  end.

(** The binding functions. *)
Definition isBinding (op : Operation) : bool :=
  match op with
  | OpUseProgram _ | OpUseVao _ | OpUse _ _ | OpCreateProgram _ => true
  | _ => false
  end.

(** The functions an operation is handed by its caller (attribute
    functions, data functions, dispose functions) leave the tracked
    variables alone: they are the caller's code, and can reach the
    variables only through the binding functions. *)
Definition callbacksKeepTracked (op : Operation) : Prop :=
  match op with
  | OpAddVertexAttrib _ _ attribFn _ =>
      ∀ index target usage, keepsTracked (attribFn index target usage)
  | OpAddVertexAttribs attribs =>
      ∀ name target attribFn usage,
        (name, (target, attribFn, usage)) ∈ attribs →
        ∀ index target' usage', keepsTracked (attribFn index target' usage')
  | OpAttrib _ (DataFunction fn) _ _ _ _ => keepsTracked fn
  | OpDeleteAttribs attribs =>
      ∀ name d, (name, d) ∈ attribs → keepsTracked (buffer_dispose d)
  | OpDeleteTextures textures =>
      ∀ t, t ∈ textures → keepsTracked (texture_dispose t)
  | _ => True
  end.

(** The program last handed to [gl.useProgram], the vertex array last handed
    to [gl.bindVertexArray] and the buffer last handed to [gl.bindBuffer] for
    a target, in a sequence of calls. *)
Definition lastUsedProgram (t : list GLCall) : option WebGLProgram :=
  fold_left
    (λ bound c, match c with UseProgram p => Some p | _ => bound end) t None.

Definition lastBoundVertexArray (t : list GLCall) :
    option WebGLVertexArrayObject :=
  fold_left
    (λ bound c, match c with BindVertexArray v => Some v | _ => bound end)
    t None.

Definition lastBoundBuffer (target : GLenum) (t : list GLCall) :
    option WebGLBuffer :=
  fold_left
    (λ bound c,
       match c with
       | BindBuffer target' buffer =>
           if decide (target' = target) then buffer else bound
       | _ => bound
       end)
    t None.

(** The tracked current program is the one the context was last told to
    use. *)
Definition programInSync (s : State) : Prop :=
  lastUsedProgram (trace s) = currentProgram s.

(** A computation that keeps a property of the state, however it
    completes. *)
Definition preserves {A} (I : State → Prop) (m : M A) : Prop :=
  ∀ s, I s → I (snd (m s)).

(** The functions an operation is handed by its caller keep the tracked
    program in step with the context. *)
Definition callbacksKeepInSync (op : Operation) : Prop :=
  match op with
  | OpAddVertexAttrib _ _ attribFn _ =>
      ∀ index target usage,
        preserves programInSync (attribFn index target usage)
  | OpAddVertexAttribs attribs =>
      ∀ name target attribFn usage,
        (name, (target, attribFn, usage)) ∈ attribs →
        ∀ index target' usage',
          preserves programInSync (attribFn index target' usage')
  | OpAttrib _ (DataFunction fn) _ _ _ _ => preserves programInSync fn
  | OpDeleteAttribs attribs =>
      ∀ name d, (name, d) ∈ attribs →
                preserves programInSync (buffer_dispose d)
  | OpDeleteTextures textures =>
      ∀ t, t ∈ textures → preserves programInSync (texture_dispose t)
  | _ => True
  end.

(** An attribute set up with [attrib] on data given as a value: the entry
    [[target, attrib(size, data, divisor), usage]] of the argument of
    [addVertexAttribs]. *)
Record AttribSpec := mkAttribSpec {
  spec_target : GLBufferTarget;
  spec_size : Z;
  spec_data : TypedArray;
  spec_divisor : Z;
  spec_usage : option GLBufferUsage
}.

Definition attribParam (a : AttribSpec) : GLAttribParam :=
  (spec_target a, attrib (spec_size a) (DataValue (spec_data a))
                    (spec_divisor a), spec_usage a).

(** The descriptor [addVertexAttribs] builds for such an entry, given the
    object and buffer it allocates and whether the program has the
    attribute. *)
Definition descriptorOf (found : bool) (object handle : nat)
    (a : AttribSpec) : GLBuffer :=
  mkGLBuffer object (spec_target a) (nullish (spec_usage a) gl.STATIC_DRAW)
    (BufferHandle handle)
    (if found then Some (spec_data a) else None)
    (if found then ta_byteOffset (spec_data a) else 0%Z)
    (call (DeleteBuffer (BufferHandle handle))).

(** The bytes of its array buffer a view covers: first byte, and the byte
    after the last. *)
Definition byteExtent (a : TypedArray) : Z * Z :=
  (ta_byteOffset a,
   (ta_byteOffset a + ta_length a * BYTES_PER_ELEMENT (ta_constructor a))%Z).


(** The calls the function [attrib] returns makes once it has its data. *)
Definition attribCalls (size divisor index : Z) (target : GLBufferTarget)
    (usage : GLBufferUsage) (data : TypedArray) : list GLCall :=
  [ BufferDataSize target
      (ta_length data * BYTES_PER_ELEMENT (ta_constructor data))%Z usage;
    BufferData target data usage ] ++
  (if decide (divisor = 0%Z) then []
   else [VertexAttribDivisor index divisor]) ++
  [ match ta_constructor data with
    | Int32Array => VertexAttribIPointer index size (Some gl.INT) 0 0
    | Float32Array =>
        VertexAttribPointer index size (Some gl.FLOAT) false 0 0
    | _ => VertexAttribPointer index size None false 0 0
    end ].

(** What ends the block of a [using] on [useBuffer(target, ...)]: the array
    buffer binding is reset, any other binding stays. *)
Definition releaseBuffer (target : GLBufferTarget) (s : State) : State :=
  if decide (target = gl.ARRAY_BUFFER)
  then set_trace (λ t, t ++ [BindBuffer gl.ARRAY_BUFFER None]) s
  else s.


(** The view [a.subarray(begin, end)] builds, as the object [object]. *)
Definition subarrayView (object : nat) (a : TypedArray) (begin end' : Z) :
    TypedArray :=
  let srcLength := ta_length a in
  let beginIndex :=
    if (begin <? 0)%Z then Z.max (srcLength + begin) 0
    else Z.min begin srcLength in
  let endIndex :=
    if (end' <? 0)%Z then Z.max (srcLength + end') 0
    else Z.min end' srcLength in
  let newLength := Z.max (endIndex - beginIndex) 0 in
  let elementSize := BYTES_PER_ELEMENT (ta_constructor a) in
  let beginByteOffset := (ta_byteOffset a + beginIndex * elementSize)%Z in
  mkTypedArray object (ta_constructor a) (ta_buffer a) beginByteOffset
    newLength.



(** The order of [Object.entries] on an object keyed by enumerants: the
    keys are array indices, which are enumerated in ascending order,
    whatever the order they were written in; no key comes twice. *)
Fixpoint ascendingFrom (low : Z) (entries : list (GLenum * Z)) : bool :=
  match entries with
  | [] => true
  | (name, _) :: rest =>
      (low <? name)%Z && (name <? 2 ^ 32 - 1)%Z && ascendingFrom name rest
  end.

Definition entriesOrder (entries : list (GLenum * Z)) : bool :=
  ascendingFrom (-1) entries.


End Context.

(** ** A sample context

    A program whose only uniform is [uColor] and whose only attribute is
    [aPos], and a compiler that accepts exactly the text [void main(){}]. *)
Module Sample.

Definition uniformLocationOf (p : WebGLProgram) (name : JsString) :
    option WebGLUniformLocation :=
  if decide (name = js "uColor") then Some (UniformHandle 7) else None.

Definition attribLocationOf (p : WebGLProgram) (name : JsString) : Z :=
  if decide (name = js "aPos") then 0%Z else (-1)%Z.

Definition compiles (type : GLenum) (source : JsString) : bool :=
  bool_decide (source = js "void main(){}").

Definition infoLogOf (type : GLenum) (source : JsString) : JsString :=
  if compiles type source then []
  else js "ERROR: 0:1: syntax error near " ++ source.

(** The state once [initGL] has run and a program is in use. *)
Definition ready : State :=
  snd ((initGL ;;; useProgram (ProgramHandle 0)) newContext).

Definition positions : TypedArray :=
  mkTypedArray 0 Float32Array 0 0 1024.

(** A buffer descriptor with a payload, and one without. *)
Definition quad : GLBuffer :=
  mkGLBuffer 1 gl.ARRAY_BUFFER gl.STATIC_DRAW (BufferHandle 1)
    (Some positions) 0 (call (DeleteBuffer (BufferHandle 1))).

Definition hollow : GLBuffer :=
  mkGLBuffer 2 gl.ARRAY_BUFFER gl.STATIC_DRAW (BufferHandle 2)
    None 0 (call (DeleteBuffer (BufferHandle 2))).

End Sample.

(** * Properties *)

(** ** The model on small inputs *)

Example trim_strips_both_ends :
  trim ([9; 32] ++ js "void main(){}" ++ [32; 13; 10])%N = js "void main(){}"
  ∧ trim (js "a  b") = js "a  b"
  ∧ trim [0xFEFF; 0x2003]%N = [].
Proof. repeat split; reflexivity. Qed.

Example shl_wraps_to_32_bits :
  shl 3 2 = 12%Z ∧ shl (-1) 2 = (-4)%Z
  ∧ shl 0x40000000 2 = 0%Z ∧ shl 0x20000000 2 = (-2147483648)%Z.
Proof. repeat split; reflexivity. Qed.

Example rangeBounds_of_four_items_from_two :
  rangeBounds (mkRange 2 6 4) = (8, 24)%Z
  ∧ rangeHash (mkRange 2 6 4) = 272%Z.
Proof. split; reflexivity. Qed.

Example subarray_clamps :
  fst (subarray Sample.positions 1000 2000 newContext)
  = Normal (mkTypedArray 0 Float32Array 0 4000 24).
Proof. reflexivity. Qed.

Example ready_has_a_program :
  currentProgram Sample.ready = Some (ProgramHandle 0)
  ∧ currentVao Sample.ready = None
  ∧ last (trace Sample.ready) = Some (UseProgram (ProgramHandle 0)).
Proof. repeat split; reflexivity. Qed.

(** [createVertexArray] binds the new vertex array on the context and does
    not record it as current. *)
Example createVertexArray_binds_untracked :
  let s := snd (createVertexArray Sample.ready) in
  last (trace s) = Some (BindVertexArray (VaoHandle 0))
  ∧ currentVao s = None.
Proof. split; reflexivity. Qed.

(** On a descriptor with no payload [getDataRange] throws, after it has
    given the descriptor an empty memo. *)
Example getDataRange_without_payload :
  let r := getDataRange Sample.hollow (mkRange 0 4 4) Sample.ready in
  fst r = Throw (TypeError (js "Cannot read properties of undefined"))
  ∧ memoized (snd r) !! buffer_object Sample.hollow = Some ∅.
Proof. split; reflexivity. Qed.


(** ** Running the monad *)

Lemma bind_normal {A B} (m : M A) (k : A → M B) s a s' :
  m s = (Normal a, s') → bind m k s = k a s'.
Proof. intros H. unfold bind. now rewrite H. Qed.

Lemma bind_throw {A B} (m : M A) (k : A → M B) s e s' :
  m s = (Throw e, s') → bind m k s = (Throw e, s').
Proof. intros H. unfold bind. now rewrite H. Qed.

(** Runs the straight-line part of a helper on a state given by its
    fields, down to the state it builds. *)
Ltac run :=
  cbv beta iota zeta delta
    [ bind ret throw call reads modify console_warn freshHandle freshObject
      set_trace set_console set_nextHandle set_shaderObjects set_nextObject
      set_memoized set_currentProgram set_currentVao
      trace console nextHandle shaderObjects currentProgram currentVao
      nextObject memoized fst snd ].

Section Properties.

Variable uniformLocationOf :
  WebGLProgram → JsString → option WebGLUniformLocation.
Variable attribLocationOf : WebGLProgram → JsString → Z.
Variable compiles : GLenum → JsString → bool.
Variable infoLogOf : GLenum → JsString → JsString.

(** ** Binding (C8) *)

(** C8.  [useProgram] with the program that is already current makes no
    call on the context and leaves the whole state as it was; with another
    program it issues the one call [gl.useProgram] and records the argument
    as current, changing nothing else.  [useVao] does the same with
    [gl.bindVertexArray] and the current vertex array. *)
Theorem useProgram_useVao_idempotent
    (program : WebGLProgram) (vao : WebGLVertexArrayObject) (s : State) :
  (currentProgram s = Some program → useProgram program s = (Normal tt, s))
  ∧ (currentProgram s ≠ Some program →
     useProgram program s =
       (Normal tt,
        mkState (trace s ++ [UseProgram program]) (console s) (nextHandle s)
          (shaderObjects s) (Some program) (currentVao s) (nextObject s)
          (memoized s)))
  ∧ (currentVao s = Some vao → useVao vao s = (Normal tt, s))
  ∧ (currentVao s ≠ Some vao →
     useVao vao s =
       (Normal tt,
        mkState (trace s ++ [BindVertexArray vao]) (console s) (nextHandle s)
          (shaderObjects s) (currentProgram s) (Some vao) (nextObject s)
          (memoized s))).
Proof.
  destruct s as [t c n so cp cv no m]. unfold useProgram, useVao. run.
  repeat split; intros H; case_decide; try reflexivity; congruence.
Qed.

(** ** The uniforms map (C3) *)

(** C3.  With a program in use, reading a name from [uniforms] never
    throws.  For a name the program has no uniform for, the read asks the
    context once, writes one warning that carries the name, and returns
    [null]; for a name it has, the read returns the program's location and
    writes no warning. *)
Theorem uniforms_missing_name_warns
    (name : JsString) (p : WebGLProgram) (s : State) :
  currentProgram s = Some p →
  (uniformLocationOf p name = None →
   uniforms uniformLocationOf name s =
     (Normal None,
      mkState (trace s ++ [GetUniformLocation p name])
        (console s ++ [(js "Uniform not found or not in use:", name)])
        (nextHandle s) (shaderObjects s) (currentProgram s) (currentVao s)
        (nextObject s) (memoized s)))
  ∧ (∀ location, uniformLocationOf p name = Some location →
     uniforms uniformLocationOf name s =
       (Normal (Some location),
        mkState (trace s ++ [GetUniformLocation p name]) (console s)
          (nextHandle s) (shaderObjects s) (currentProgram s) (currentVao s)
          (nextObject s) (memoized s))).
Proof.
  destruct s as [t c n so cp cv no m]. intros Hp. cbn in Hp. subst cp.
  unfold uniforms, gl_getUniformLocation. run.
  split; [intros H | intros l H]; rewrite H; reflexivity.
Qed.

(** ** Texture activation (C10) *)

Lemma set_trace_app (a b : list GLCall) (s : State) :
  set_trace (λ t, t ++ b) (set_trace (λ t, t ++ a) s)
  = set_trace (λ t, t ++ (a ++ b)) s.
Proof. destruct s. run. now rewrite <- app_assoc. Qed.

Lemma set_trace_nil (s : State) : set_trace (λ t, t ++ []) s = s.
Proof. destruct s. run. now rewrite app_nil_r. Qed.

(** An indexed loop whose body only makes calls makes them index by
    index. *)
Lemma forIndex_calls {A} (f : nat → A → list GLCall) (body : nat → M unit)
    (l : list A) :
  ∀ (i0 : nat) (s : State),
  (∀ i x, l !! i = Some x →
     ∀ s', body (i0 + i) s' = (Normal tt, set_trace (λ t, t ++ f (i0 + i) x) s')) →
  forIndex (length l) i0 body s
  = (Normal tt, set_trace (λ t, t ++ concat (imap (λ i, f (i0 + i)) l)) s).
Proof.
  induction l as [|x l IH]; intros i0 s Hbody; simpl.
  - unfold ret. now rewrite set_trace_nil.
  - specialize (Hbody 0 x eq_refl) as H0. rewrite Nat.add_0_r in H0.
    rewrite (bind_normal _ _ _ _ _ (H0 s)).
    rewrite IH.
    + rewrite set_trace_app, Nat.add_0_r.
      assert (E : imap (λ i, f (S i0 + i)) l = imap ((λ i, f (i0 + i)) ∘ S) l).
      { apply imap_ext. intros i y _. simpl. f_equal. lia. }
      now rewrite E.
    + intros i y Hi s'. replace (S i0 + i) with (i0 + S i) by lia.
      now apply Hbody.
Qed.


(** C10.  [activateTextures] goes through the list in order and, for the
    texture at index [i], selects texture unit [TEXTURE0 + i], binds the
    texture to its own target and writes the integer [i] to its uniform
    slot: the calls it makes are exactly these three per texture, index by
    index, and nothing else in the state changes. *)
Theorem activateTextures_in_order (textures : list GLTexture) (s : State) :
  activateTextures textures s =
    (Normal tt,
     mkState (trace s ++ concat (imap textureUnitCalls textures))
       (console s) (nextHandle s) (shaderObjects s) (currentProgram s)
       (currentVao s) (nextObject s) (memoized s)).
Proof.
  unfold activateTextures.
  rewrite (forIndex_calls textureUnitCalls).
  - reflexivity.
  - intros i t Hi s'. simpl. rewrite Hi. destruct s'. run.
    now rewrite <- !app_assoc.
Qed.

(** ** Attributes the program does not have (C6) *)

(** C6.  With a program in use, for a name whose attribute lookup yields
    -1: [bindVertexAttribBuffer] asks for the location, writes one warning
    and returns [undefined], with no buffer bound, no location bound and no
    array enabled; [addVertexAttrib] creates and binds its buffer, never
    runs the attribute function (whatever that function is), releases the
    array-buffer binding and returns the buffer with no data.  Neither
    throws. *)
Theorem missing_attribute_is_skipped
    (target : GLBufferTarget) (buffer : WebGLBuffer) (name : JsString)
    (attribFn : GLAttribFn) (usage : option GLBufferUsage)
    (p : WebGLProgram) (s : State) :
  currentProgram s = Some p →
  attribLocationOf p name = (-1)%Z →
  bindVertexAttribBuffer attribLocationOf target buffer name s =
    (Normal None,
     mkState (trace s ++ [GetAttribLocation p name])
       (console s ++ [(js "Attribute not found or not in use:", name)])
       (nextHandle s) (shaderObjects s) (currentProgram s) (currentVao s)
       (nextObject s) (memoized s))
  ∧ addVertexAttrib attribLocationOf target name attribFn usage s =
    (Normal (mkVertexAttrib (BufferHandle (nextHandle s)) None),
     mkState
       (trace s ++
          [ CreateBuffer (BufferHandle (nextHandle s));
            BindBuffer target (Some (BufferHandle (nextHandle s)));
            GetAttribLocation p name ] ++
          (if decide (target = gl.ARRAY_BUFFER)
           then [BindBuffer gl.ARRAY_BUFFER None] else []))
       (console s ++ [(js "Attribute not found or not in use:", name)])
       (S (nextHandle s)) (shaderObjects s) (currentProgram s) (currentVao s)
       (nextObject s) (memoized s)).
Proof.
  destruct s as [t c n so cp cv no m]. intros Hp Hloc. cbn in Hp. subst cp.
  split.
  - unfold bindVertexAttribBuffer, gl_getAttribLocation. run.
    rewrite Hloc. reflexivity.
  - unfold addVertexAttrib, useBuffer, bufferDisposables.
    destruct (decide (target = gl.ARRAY_BUFFER));
      unfold usingResource, gl_createBuffer, bindVertexAttribBuffer,
        gl_getAttribLocation; run; rewrite Hloc;
      rewrite decide_True by reflexivity; run;
      rewrite <- !app_assoc; reflexivity.
Qed.

(** ** [trim] *)

Lemma blank_cons (c : N) (s : JsString) :
  blank (c :: s) ↔ isWhiteSpace c = true ∧ blank s.
Proof. unfold blank; simpl. apply andb_true_iff. Qed.

Lemma blank_app (l r : JsString) : blank (l ++ r) ↔ blank l ∧ blank r.
Proof. unfold blank. rewrite forallb_app. apply andb_true_iff. Qed.

Lemma blank_rev (s : JsString) : blank s → blank (rev s).
Proof.
  induction s as [|c s IH]; simpl; [trivial|].
  rewrite blank_cons, blank_app. intros [Hc Hs].
  split; [now apply IH | now apply blank_cons].
Qed.

Lemma trimStart_blank_app (l s : JsString) :
  blank l → trimStart (l ++ s) = trimStart s.
Proof.
  induction l as [|c l IH]; simpl; [reflexivity|].
  rewrite blank_cons. intros [Hc Hl]. rewrite Hc. now apply IH.
Qed.

Lemma trimStart_nil (s : JsString) : trimStart s = [] ↔ blank s.
Proof.
  induction s as [|c s IH]; simpl.
  - split; reflexivity.
  - rewrite blank_cons. destruct (isWhiteSpace c) eqn:Hc.
    + rewrite IH. tauto.
    + split; [discriminate | intros [? _]; discriminate].
Qed.

Lemma trimStart_app_keep (t u : JsString) :
  trimStart t ≠ [] → trimStart (t ++ u) = trimStart t ++ u.
Proof.
  induction t as [|c t IH]; simpl; [congruence|].
  destruct (isWhiteSpace c); [exact IH | reflexivity].
Qed.

(** What [trimStart] removes is white space, and what it leaves does not
    start with any. *)
Lemma trimStart_split (s : JsString) :
  ∃ l, s = l ++ trimStart s ∧ blank l.
Proof.
  induction s as [|c s [l [E Hl]]]; simpl.
  - now exists [].
  - destruct (isWhiteSpace c) eqn:Hc.
    + exists (c :: l). split; [simpl; congruence | now apply blank_cons].
    + now exists [].
Qed.

Lemma trimStart_head (s : JsString) (c : N) :
  head (trimStart s) = Some c → isWhiteSpace c = false.
Proof.
  induction s as [|d s IH]; simpl; [discriminate|].
  destruct (isWhiteSpace d) eqn:Hd; [exact IH|].
  simpl. congruence.
Qed.

Lemma trimEnd_app_blank (t u : JsString) :
  blank u → trimEnd (t ++ u) = trimEnd t.
Proof.
  intros Hu. unfold trimEnd.
  now rewrite rev_app_distr, trimStart_blank_app by now apply blank_rev.
Qed.

Lemma trimEnd_split (s : JsString) :
  ∃ r, s = trimEnd s ++ r ∧ blank r.
Proof.
  destruct (trimStart_split (rev s)) as [l [E Hl]].
  exists (rev l). split; [|now apply blank_rev].
  unfold trimEnd. rewrite <- rev_app_distr, <- E. now rewrite rev_involutive.
Qed.

Lemma last_rev (s : JsString) : last (rev s) = head s.
Proof. destruct s as [|c s]; simpl; [reflexivity | apply last_snoc]. Qed.

Lemma trimEnd_last (s : JsString) (c : N) :
  last (trimEnd s) = Some c → isWhiteSpace c = false.
Proof. unfold trimEnd. rewrite last_rev. apply trimStart_head. Qed.

Lemma trimEnd_head (s : JsString) (c : N) :
  head (trimEnd s) = Some c → head s = Some c.
Proof.
  destruct (trimEnd_split s) as [r [E _]]. intros H.
  rewrite E. rewrite head_app, H. reflexivity.
Qed.

(** White space around a text does not change what [trim] gives. *)
Lemma trim_surrounding (l t r : JsString) :
  blank l → blank r → trim (l ++ t ++ r) = trim t.
Proof.
  intros Hl Hr. unfold trim. rewrite trimStart_blank_app by assumption.
  destruct (trimStart t) as [|c t'] eqn:E.
  - apply trimStart_nil in E.
    assert (H : trimStart (t ++ r) = []).
    { apply trimStart_nil. now apply blank_app. }
    now rewrite H.
  - rewrite trimStart_app_keep by (rewrite E; discriminate).
    rewrite E. now apply trimEnd_app_blank.
Qed.

(** [trim s] is [s] without a blank prefix and a blank suffix, and has white
    space at neither end. *)
Lemma trim_spec (s : JsString) :
  (∃ l r, s = l ++ trim s ++ r ∧ blank l ∧ blank r)
  ∧ (∀ c, head (trim s) = Some c → isWhiteSpace c = false)
  ∧ (∀ c, last (trim s) = Some c → isWhiteSpace c = false).
Proof.
  unfold trim. split; [|split].
  - destruct (trimStart_split s) as [l [El Hl]].
    destruct (trimEnd_split (trimStart s)) as [r [Er Hr]].
    exists l, r. split; [|split; assumption].
    now rewrite <- Er.
  - intros c H. apply trimEnd_head in H. now apply trimStart_head in H.
  - apply trimEnd_last.
Qed.

(** ** Shaders (C4, C9) *)

(** [createShader], run. *)
Lemma createShader_run (type : GLenum) (src : ShaderSrc) (s : State) :
  let shader := ShaderHandle (nextHandle s) in
  let text := compiledText type src s in
  createShader compiles infoLogOf type src s =
    (if compiles type text then Normal shader
     else Throw (Error (infoLogOf type text)),
     mkState
       (trace s ++
          [ CreateShader type shader; ShaderSource shader text;
            CompileShader shader;
            GetShaderParameter shader gl.COMPILE_STATUS ] ++
          (if compiles type text then [] else [GetShaderInfoLog shader]))
       (console s) (S (nextHandle s))
       (<[nextHandle s :=
            mkShaderObject type text (compiles type text)
              (infoLogOf type text)]> (shaderObjects s))
       (currentProgram s) (currentVao s) (nextObject s) (memoized s)).
Proof.
  unfold createShader, compiledText, gl_createShader, gl_shaderSource,
    gl_compileShader, gl_getShaderParameter, gl_getShaderInfoLog, srcText.
  destruct s as [t c n so cp cv no m].
  destruct src as [text|f]; run; cbn [sourceText shader_no];
    rewrite !alter_insert_eq, !lookup_insert_eq;
    cbn [shader_type shader_source shader_compile_status shader_info_log];
    rewrite bool_decide_eq_true_2 by reflexivity;
    match goal with |- context [compiles ?ty ?x] =>
      destruct (compiles ty x) end; cbn [negb andb]; run;
    rewrite ?lookup_insert_eq; cbn [shader_info_log];
    rewrite <- !app_assoc; reflexivity.
Qed.


(** C4.  A shader whose text fails to compile makes [createShader] throw an
    [Error] whose message is the compiler's info log for that text; one that
    compiles makes it return the new handle, which the context holds as a
    compiled shader of the requested type.  [createShaders] throws the
    vertex shader's info log if the vertex text fails, the fragment
    shader's if only the fragment text fails, and otherwise returns two
    distinct handles, a compiled vertex shader and a compiled fragment
    shader. *)
Theorem createShader_throws_info_log
    (type : GLenum) (src : ShaderSrc) (srcs : ShaderSources) (s : State) :
  let text := compiledText type src s in
  let s1 := snd (createShader compiles infoLogOf gl.VERTEX_SHADER
                   (src_vertex srcs) s) in
  let tv := compiledText gl.VERTEX_SHADER (src_vertex srcs) s in
  let tf := compiledText gl.FRAGMENT_SHADER (src_fragment srcs) s1 in
  (compiles type text = false →
   ∃ s', createShader compiles infoLogOf type src s =
           (Throw (Error (infoLogOf type text)), s'))
  ∧ (compiles type text = true →
     ∃ s', createShader compiles infoLogOf type src s =
             (Normal (ShaderHandle (nextHandle s)), s')
           ∧ shaderObjects s' !! nextHandle s =
               Some (mkShaderObject type text true (infoLogOf type text)))
  ∧ (compiles gl.VERTEX_SHADER tv = false →
     ∃ s', createShaders compiles infoLogOf srcs s =
             (Throw (Error (infoLogOf gl.VERTEX_SHADER tv)), s'))
  ∧ (compiles gl.VERTEX_SHADER tv = true →
     compiles gl.FRAGMENT_SHADER tf = false →
     ∃ s', createShaders compiles infoLogOf srcs s =
             (Throw (Error (infoLogOf gl.FRAGMENT_SHADER tf)), s'))
  ∧ (compiles gl.VERTEX_SHADER tv = true →
     compiles gl.FRAGMENT_SHADER tf = true →
     ∃ shaders s',
       createShaders compiles infoLogOf srcs s = (Normal shaders, s')
       ∧ vertex shaders ≠ fragment shaders
       ∧ shaderObjects s' !! shader_no (vertex shaders) =
           Some (mkShaderObject gl.VERTEX_SHADER tv true
                   (infoLogOf gl.VERTEX_SHADER tv))
       ∧ shaderObjects s' !! shader_no (fragment shaders) =
           Some (mkShaderObject gl.FRAGMENT_SHADER tf true
                   (infoLogOf gl.FRAGMENT_SHADER tf))).
Proof.
  intros text s1 tv tf. subst text s1 tv tf.
  split; [|split].
  - intros H. rewrite createShader_run, H. eauto.
  - intros H. rewrite createShader_run, H. eexists. split; [reflexivity|].
    simpl. apply lookup_insert_eq.
  - unfold createShaders, bind.
    rewrite (createShader_run gl.VERTEX_SHADER). simpl.
    destruct (compiles gl.VERTEX_SHADER
                (compiledText gl.VERTEX_SHADER (src_vertex srcs) s)).
    + split; [discriminate|].
      rewrite (createShader_run gl.FRAGMENT_SHADER). simpl.
      match goal with |- context [compiles gl.FRAGMENT_SHADER ?x] =>
        destruct (compiles gl.FRAGMENT_SHADER x) end.
      * split; [intros _; discriminate|]. intros _ _.
        do 2 eexists. split; [reflexivity|]. simpl.
        split; [intros [=]; lia|]. split.
        -- rewrite lookup_insert_ne by lia. apply lookup_insert_eq.
        -- apply lookup_insert_eq.
      * split; [intros _ _; eauto | intros _; discriminate].
    + split; [intros _; eauto|]. split; intros; discriminate.
Qed.

(** C9.  The text [createShader] passes to [gl.shaderSource], in its one
    call of it, is the source's text (the function's result, for a source
    given as a function) with the white space at both ends removed: the
    text is that string between two blank strings, and the string itself
    begins and ends with no white space.  So a source whose text is another
    source's text with white space around it is compiled to the same
    outcome, call for call. *)
Theorem createShader_trims_source
    (type : GLenum) (src src' : ShaderSrc) (l r : JsString) (s : State) :
  let s1 := snd (gl_createShader type s) in
  let shader := ShaderHandle (nextHandle s) in
  let text := sourceText src s1 in
  (∃ rest,
     trace (snd (createShader compiles infoLogOf type src s)) =
       trace s ++ CreateShader type shader
         :: ShaderSource shader (trim text) :: CompileShader shader :: rest
     ∧ ∀ sh t, ShaderSource sh t ∉ rest)
  ∧ (∃ l0 r0, text = l0 ++ trim text ++ r0 ∧ blank l0 ∧ blank r0)
  ∧ (∀ c, head (trim text) = Some c → isWhiteSpace c = false)
  ∧ (∀ c, last (trim text) = Some c → isWhiteSpace c = false)
  ∧ (blank l → blank r → text = l ++ sourceText src' s1 ++ r →
     createShader compiles infoLogOf type src s =
     createShader compiles infoLogOf type src' s).
Proof.
  intros s1 shader text.
  split; [|split; [apply trim_spec | split; [apply trim_spec |
    split; [apply trim_spec|]]]].
  - rewrite createShader_run. simpl. eexists. split; [reflexivity|].
    intros sh t H.
    destruct (compiles type (compiledText type src s));
      repeat (apply elem_of_cons in H as [H|H]; [discriminate|]);
      now apply elem_of_nil in H.
  - intros Hl Hr E. rewrite !createShader_run. unfold compiledText.
    fold s1. fold text. rewrite E. now rewrite trim_surrounding.
Qed.


(** ** Disposal (C5) *)

Lemma bind_inv {A B} (m : M A) (k : A → M B) s b s' :
  bind m k s = (Normal b, s') →
  ∃ a s1, m s = (Normal a, s1) ∧ k a s1 = (Normal b, s').
Proof.
  unfold bind. destruct (m s) as [[a|e] s1]; [eauto | discriminate].
Qed.

(** A [for ... of] loop whose body makes one call per element. *)
Lemma forOf_calls {A} (f : A → GLCall) (body : A → M unit) (l : list A) :
  (∀ x, x ∈ l → body x = call (f x)) →
  ∀ s, forOf l body s = (Normal tt, set_trace (λ t, t ++ (f <$> l)) s).
Proof.
  induction l as [|x l IH]; intros Hbody s; simpl.
  - unfold ret. now rewrite set_trace_nil.
  - rewrite (bind_normal _ _ s tt (set_trace (λ t, t ++ [f x]) s)).
    + rewrite IH by (intros y Hy; apply Hbody; now right).
      now rewrite set_trace_app.
    + rewrite Hbody by now left. reflexivity.
Qed.

(** [createTexture], run. *)
Lemma createTexture_run (target : GLTextureTarget)
    (uniform : option WebGLUniformLocation) (params : list (GLenum * Z))
    (s : State) :
  let texture := TextureHandle (nextHandle s) in
  createTexture target uniform params s =
    (Normal (mkGLTexture target uniform texture (call (DeleteTexture texture))),
     mkState
       (trace s ++ [CreateTexture texture; BindTexture target texture] ++
          (texParameterCall target <$> params))
       (console s) (S (nextHandle s)) (shaderObjects s) (currentProgram s)
       (currentVao s) (nextObject s) (memoized s)).
Proof.
  unfold createTexture, gl_createTexture. run.
  erewrite (forOf_calls (texParameterCall target)).
  - simpl. unfold set_trace; simpl. now rewrite <- !app_assoc.
  - intros [name param] _. unfold texParameterCall; simpl.
    now destruct (decide (name ∈ texFloats)).
Qed.

Lemma record_set_Forall {V} (P : V → Prop) (name : JsString) (v : V)
    (obj : JsRecord V) :
  P v → Forall (λ e, P e.2) obj → Forall (λ e, P e.2) (record_set name v obj).
Proof.
  intros Hv. induction 1 as [|[k w] obj Hw Hobj IH]; simpl.
  - now repeat constructor.
  - case_decide; constructor; simpl; assumption.
Qed.

Lemma addVertexAttribs_loop_dispose
    (entries : list (JsString * GLAttribParam)) :
  ∀ (acc res : JsRecord GLBuffer) (s s' : State),
  addVertexAttribs_loop attribLocationOf entries acc s = (Normal res, s') →
  Forall (λ e, deletesOwnBuffer e.2) acc →
  Forall (λ e, deletesOwnBuffer e.2) res.
Proof.
  induction entries as [|[name [[target attribFn] usage]] entries IH];
    intros acc res s s' Hrun Hacc; simpl in Hrun.
  - unfold ret in Hrun. congruence.
  - apply bind_inv in Hrun as (acc' & s1 & Hstep & Hrest).
    apply (IH _ _ _ _ Hrest).
    unfold addVertexAttribs_step in Hstep.
    apply bind_inv in Hstep as (r & s2 & _ & Hstep).
    apply bind_inv in Hstep as (object & s3 & _ & Hstep).
    unfold ret in Hstep. injection Hstep as <- _.
    now apply record_set_Forall.
Qed.

(** C5.  Every descriptor in what [addVertexAttribs] returns has a dispose
    function that makes exactly one call, [gl.deleteBuffer] on the
    descriptor's own buffer, and [deleteAttribs] on that result makes those
    calls, one per descriptor, in order.  [createTexture] always returns a
    descriptor whose dispose function makes exactly one call,
    [gl.deleteTexture] on the descriptor's own texture, and
    [deleteTextures] on descriptors so created makes those calls, one per
    descriptor, in order.  None of them throws or changes anything else. *)
Theorem dispose_releases_handle_once
    (attribs : JsRecord GLAttribParam) (s s' : State)
    (res : JsRecord GLBuffer)
    (target : GLTextureTarget) (uniform : option WebGLUniformLocation)
    (params : list (GLenum * Z)) (textures : list GLTexture) (s0 : State) :
  (addVertexAttribs attribLocationOf attribs s = (Normal res, s') →
   (∀ name d, (name, d) ∈ res →
      buffer_dispose d s0 =
        (Normal tt, set_trace (λ t, t ++ [DeleteBuffer (buffer_buffer d)]) s0))
   ∧ deleteAttribs res s0 =
       (Normal tt,
        set_trace
          (λ t, t ++ ((λ d, DeleteBuffer (buffer_buffer d))
                        <$> Object_values res)) s0))
  ∧ (∃ t s1,
       createTexture target uniform params s = (Normal t, s1)
       ∧ texture_dispose t s0 =
           (Normal tt,
            set_trace (λ t', t' ++ [DeleteTexture (texture_texture t)]) s0))
  ∧ (Forall fromCreateTexture textures →
     deleteTextures textures s0 =
       (Normal tt,
        set_trace
          (λ t, t ++ ((λ d, DeleteTexture (texture_texture d)) <$> textures))
          s0)).
Proof.
  split; [|split].
  - intros Hrun.
    assert (Hres : Forall (λ e, deletesOwnBuffer e.2) res).
    { apply (addVertexAttribs_loop_dispose _ _ _ _ _ Hrun). constructor. }
    rewrite Forall_forall in Hres. split.
    + intros name d Hd. specialize (Hres _ Hd). simpl in Hres.
      unfold deletesOwnBuffer in Hres. rewrite Hres. reflexivity.
    + unfold deleteAttribs. apply forOf_calls.
      intros d Hd. apply list_elem_of_fmap in Hd as ([name d'] & -> & Hd).
      apply (Hres _ Hd).
  - rewrite createTexture_run. do 2 eexists. split; reflexivity.
  - intros Hall. unfold deleteTextures. apply forOf_calls.
    intros t Ht. rewrite Forall_forall in Hall.
    destruct (Hall _ Ht) as (tg & u & ps & st & E).
    rewrite createTexture_run in E. simpl in E. injection E as <-.
    reflexivity.
Qed.


(** ** The tracked variables (C7) *)

Lemma keeps_ret {A} (a : A) : keepsTracked (ret a).
Proof. intros s; reflexivity. Qed.

Lemma keeps_throw {A} (e : JsError) : keepsTracked (@throw A e).
Proof. intros s; reflexivity. Qed.

Lemma keeps_call (c : GLCall) : keepsTracked (call c).
Proof. intros s; reflexivity. Qed.

Lemma keeps_reads {A} (f : State → A) : keepsTracked (reads f).
Proof. intros s; reflexivity. Qed.

Lemma keeps_console_warn (message name : JsString) :
  keepsTracked (console_warn message name).
Proof. intros s; reflexivity. Qed.

Lemma keeps_freshHandle : keepsTracked freshHandle.
Proof. intros s; reflexivity. Qed.

Lemma keeps_freshObject : keepsTracked freshObject.
Proof. intros s; reflexivity. Qed.

Lemma keeps_modify (f : State → State) :
  (∀ s, tracked (f s) = tracked s) → keepsTracked (modify f).
Proof. intros H s. apply H. Qed.

Lemma keeps_bind_value {A B} (P : A → Prop) (m : M A) (k : A → M B) :
  keepsTracked m →
  (∀ s a s', m s = (Normal a, s') → P a) →
  (∀ a, P a → keepsTracked (k a)) →
  keepsTracked (bind m k).
Proof.
  intros Hm HP Hk s. unfold bind.
  specialize (Hm s). destruct (m s) as [[a|e] s1] eqn:E; simpl in Hm.
  - rewrite (Hk a (HP _ _ _ E)). exact Hm.
  - exact Hm.
Qed.

Lemma keeps_bind {A B} (m : M A) (k : A → M B) :
  keepsTracked m → (∀ a, keepsTracked (k a)) → keepsTracked (bind m k).
Proof.
  intros Hm Hk. apply (keeps_bind_value (λ _, True)); auto.
Qed.

Lemma keeps_usingResource {A} (d : option Disposable) (body : M A) :
  (∀ dispose, d = Some dispose → keepsTracked dispose) →
  keepsTracked body → keepsTracked (usingResource d body).
Proof.
  intros Hd Hbody s. unfold usingResource.
  specialize (Hbody s). destruct (body s) as [r s1]; simpl in Hbody.
  destruct d as [dispose|]; [|exact Hbody].
  specialize (Hd dispose eq_refl s1).
  destruct (dispose s1) as [[[]|e] s2]; simpl in Hd; destruct r; simpl; congruence.
Qed.

Lemma keeps_forOf {A} (l : list A) (body : A → M unit) :
  (∀ x, x ∈ l → keepsTracked (body x)) → keepsTracked (forOf l body).
Proof.
  induction l as [|x l IH]; intros H; simpl.
  - apply keeps_ret.
  - apply keeps_bind; [apply H; now left|].
    intros _. apply IH. intros y Hy. apply H. now right.
Qed.

Lemma keeps_forIndex (body : nat → M unit) (n : nat) :
  (∀ i, keepsTracked (body i)) → ∀ i, keepsTracked (forIndex n i body).
Proof.
  intros H. induction n as [|n IH]; intros i; simpl.
  - apply keeps_ret.
  - apply keeps_bind; [apply H | intros _; apply IH].
Qed.

Create HintDb tracked.

#[local] Hint Resolve keeps_ret keeps_throw keeps_call keeps_reads
  keeps_console_warn keeps_freshHandle keeps_freshObject : tracked.

(** Takes a straight-line helper apart, statement by statement. *)
Ltac keeps :=
  repeat first
    [ solve [auto with tracked]
    | apply keeps_modify; intros; reflexivity
    | apply keeps_bind; [|intros ?]
    | progress case_match ].


Lemma keeps_bufferDisposables (target : GLenum) (dispose : Disposable) :
  bufferDisposables target = Some dispose → keepsTracked dispose.
Proof.
  unfold bufferDisposables. case_decide; [|discriminate].
  intros [= <-]. apply keeps_call.
Qed.

Lemma useBuffer_value (target : GLBufferTarget) (buffer : WebGLBuffer)
    (s s' : State) (d : option Disposable) :
  useBuffer target buffer s = (Normal d, s') → d = bufferDisposables target.
Proof. unfold useBuffer. run. congruence. Qed.

Lemma keeps_useBuffer (target : GLBufferTarget) (buffer : WebGLBuffer) :
  keepsTracked (useBuffer target buffer).
Proof. unfold useBuffer. keeps. Qed.

Lemma keeps_bindVertexAttribBuffer (target : GLBufferTarget)
    (buffer : WebGLBuffer) (name : JsString) :
  keepsTracked (bindVertexAttribBuffer attribLocationOf target buffer name).
Proof.
  unfold bindVertexAttribBuffer, gl_getAttribLocation, gl_bindAttribLocation.
  keeps.
Qed.

Lemma keeps_addVertexAttrib (target : GLBufferTarget) (name : JsString)
    (attribFn : GLAttribFn) (usage : option GLBufferUsage) :
  (∀ index target' usage', keepsTracked (attribFn index target' usage')) →
  keepsTracked (addVertexAttrib attribLocationOf target name attribFn usage).
Proof.
  intros Hfn. unfold addVertexAttrib, gl_createBuffer.
  apply keeps_bind; [keeps|]. intros buffer.
  apply (keeps_bind_value (λ d, d = bufferDisposables target)).
  - apply keeps_useBuffer.
  - intros s d s'. apply useBuffer_value.
  - intros d ->. apply keeps_usingResource.
    + apply keeps_bufferDisposables.
    + apply keeps_bind; [apply keeps_bindVertexAttribBuffer|].
      intros [index|]; [|apply keeps_ret].
      apply keeps_bind; [apply Hfn | intros; apply keeps_ret].
Qed.

Lemma keeps_addVertexAttribs_loop
    (entries : list (JsString * GLAttribParam)) :
  (∀ name target attribFn usage,
     (name, (target, attribFn, usage)) ∈ entries →
     ∀ index target' usage', keepsTracked (attribFn index target' usage')) →
  ∀ acc, keepsTracked (addVertexAttribs_loop attribLocationOf entries acc).
Proof.
  induction entries as [|[name [[target attribFn] usage]] entries IH];
    intros H acc; simpl.
  - apply keeps_ret.
  - apply keeps_bind.
    + unfold addVertexAttribs_step.
      apply keeps_bind; [|intros; keeps].
      apply keeps_addVertexAttrib. apply (H name target attribFn usage).
      now left.
    + intros acc'. apply IH. intros n t f u Hin. apply (H n t f u).
      now right.
Qed.

Lemma keeps_bufferSubData (a : GLBuffer) (data : TypedArray) (offset : Z) :
  keepsTracked (bufferSubData a data offset).
Proof.
  unfold bufferSubData.
  apply (keeps_bind_value (λ d, d = bufferDisposables (buffer_target a))).
  - apply keeps_useBuffer.
  - intros s d s'. apply useBuffer_value.
  - intros d ->. apply keeps_usingResource;
      [apply keeps_bufferDisposables | apply keeps_call].
Qed.

Lemma keeps_getDataRange (a : GLBuffer) (range : Range) :
  keepsTracked (getDataRange a range).
Proof.
  unfold getDataRange, data_subarray, subarray.
  destruct (rangeBounds range) as [begin end']. keeps.
Qed.

Lemma keeps_createShader (type : GLenum) (src : ShaderSrc) :
  keepsTracked (createShader compiles infoLogOf type src).
Proof.
  unfold createShader, gl_createShader, srcText, gl_shaderSource,
    gl_compileShader, gl_getShaderParameter, gl_getShaderInfoLog.
  keeps.
Qed.

(** C7.  Of the operations [initGL] returns, only the binding functions
    ([useProgram], [useVao], [use], and [createProgram] through
    [useProgram]) change the tracked current program or current vertex
    array: every other operation, whatever its arguments and however it
    completes, leaves both as they were, provided the functions its caller
    hands it do so too. *)
Theorem only_binding_changes_tracked (op : Operation) (s : State) :
  isBinding op = false →
  callbacksKeepTracked op →
  let s' := exec uniformLocationOf attribLocationOf compiles infoLogOf op s in
  currentProgram s' = currentProgram s ∧ currentVao s' = currentVao s.
Proof.
  intros Hop Hcb s'. subst s'.
  enough (H : tracked (exec uniformLocationOf attribLocationOf compiles
                         infoLogOf op s) = tracked s)
    by (unfold tracked in H; now inversion H).
  revert s.
  destruct op; try discriminate Hop; simpl in *; clear Hop.
  - apply keeps_forIndex. intros i. keeps.
  - now apply keeps_addVertexAttrib.
  - now apply keeps_addVertexAttribs_loop.
  - change (keepsTracked (attrib size fnOrData divisor index target usage)).
    unfold attrib. apply keeps_bind; [destruct fnOrData; keeps|].
    intros data. keeps.
  - apply keeps_bindVertexAttribBuffer.
  - apply keeps_bufferSubData.
  - apply keeps_createShader.
  - change (keepsTracked (createShaders compiles infoLogOf src)).
    unfold createShaders.
    apply keeps_bind; [apply keeps_createShader|]. intros v.
    apply keeps_bind; [apply keeps_createShader|]. intros f. keeps.
  - intros s. rewrite createTexture_run. reflexivity.
  - change (keepsTracked createVertexArray).
    unfold createVertexArray, gl_createVertexArray. keeps.
  - apply keeps_forOf. intros d Hd.
    apply list_elem_of_fmap in Hd as ([name d'] & -> & Hd).
    apply (Hcb _ _ Hd).
  - change (keepsTracked (deleteShaders shaders)). unfold deleteShaders. keeps.
  - apply keeps_forOf. exact Hcb.
  - change (keepsTracked (setBuffer buffer data usage)).
    unfold setBuffer. keeps.
  - change (keepsTracked (uniforms uniformLocationOf name)).
    unfold uniforms, gl_getUniformLocation. keeps.
  - change (keepsTracked (useArrayBuffer buffer)). unfold useArrayBuffer. keeps.
  - apply keeps_useBuffer.
  - change (keepsTracked (writeAttribRange attrib0 range)).
    unfold writeAttribRange.
    apply keeps_bind; [apply keeps_getDataRange|].
    intros data. apply keeps_bufferSubData.
Qed.


(** ** The range memo (C1, C2) *)

(** [bufferSubData], run. *)
Lemma bufferSubData_run (a : GLBuffer) (data : TypedArray) (offset : Z)
    (s : State) :
  bufferSubData a data offset s =
    (Normal tt,
     set_trace
       (λ t, t ++
          [ BindBuffer (buffer_target a) (Some (buffer_buffer a));
            BufferSubData (buffer_target a) offset data ] ++
          (if decide (buffer_target a = gl.ARRAY_BUFFER)
           then [BindBuffer gl.ARRAY_BUFFER None] else []))
       s).
Proof.
  destruct s as [t c n so cp cv no m].
  unfold bufferSubData, useBuffer, usingResource, bufferDisposables.
  destruct (decide (buffer_target a = gl.ARRAY_BUFFER)); run;
    rewrite <- !app_assoc; reflexivity.
Qed.

(** A hit: the memo of this buffer has a view under the range's hash. *)
Lemma getDataRange_hit (a : GLBuffer) (range : Range) (s : State)
    (mem : gmap Z TypedArray) (view : TypedArray) :
  memoized s !! buffer_object a = Some mem →
  mem !! rangeHash range = Some view →
  getDataRange a range s = (Normal view, s).
Proof.
  destruct s as [t c n so cp cv no m]. cbn [memoized].
  intros Hmem Hview. unfold getDataRange.
  destruct (rangeBounds range) as [begin end']. run.
  rewrite Hmem. run. now rewrite Hview.
Qed.

(** Once [getDataRange] has returned a view, the memo of this buffer holds
    that view under the range's hash, and the memo of every other buffer is
    as it was. *)
Lemma getDataRange_memoizes (a : GLBuffer) (range : Range) (s s1 : State)
    (view : TypedArray) :
  getDataRange a range s = (Normal view, s1) →
  ∃ mem,
    memoized s1 !! buffer_object a = Some mem
    ∧ mem !! rangeHash range = Some view
    ∧ ∀ other, other ≠ buffer_object a →
        memoized s1 !! other = memoized s !! other.
Proof.
  destruct s as [t c n so cp cv no m]. cbn [memoized].
  unfold getDataRange, data_subarray, subarray, rangeHash.
  destruct (rangeBounds range) as [begin end']. run.
  destruct (m !! buffer_object a) as [mem|] eqn:Hmem; run.
  - destruct (mem !! (begin * 31 + end')%Z) as [view'|] eqn:Hview; run.
    + intros [= <- <-]. exists mem. cbn [memoized]. auto.
    + destruct (buffer_data a) as [data|]; run; [|discriminate].
      intros [= <- <-]. eexists. cbn [memoized].
      rewrite lookup_alter_eq, Hmem. cbn [fmap option_fmap option_map].
      split; [reflexivity|]. split; [apply lookup_insert_eq|].
      intros other Hother. now rewrite lookup_alter_ne.
  - rewrite lookup_empty.
    destruct (buffer_data a) as [data|]; run; [|discriminate].
    intros [= <- <-]. eexists. cbn [memoized].
    rewrite lookup_alter_eq, lookup_insert_eq.
    cbn [fmap option_fmap option_map].
    split; [reflexivity|]. split; [apply lookup_insert_eq|].
    intros other Hother.
    now rewrite lookup_alter_ne, lookup_insert_ne.
Qed.



(** [subarray] returns the view [subarrayView] describes, as the next
    object. *)
Lemma subarray_view (a : TypedArray) (begin end' : Z) (s : State) :
  subarray a begin end' s =
    (Normal (subarrayView (nextObject s) a begin end'), set_nextObject S s).
Proof. destruct s as [t c n so cp cv no m]. reflexivity. Qed.




End Properties.

(** ** The hash of a range (C2) *)

(** C2.  The key under which [getDataRange] memoizes a view is
    [31 * begin + end], which does not tell all bounds apart: the ranges of
    33 items from item 0 and of 1 item from item 1 have the different bounds
    (0, 132) and (4, 8) and the same key 132.  After a lookup of the first,
    a lookup of the second on the same buffer returns the first one's view
    (132 elements from byte 0) where a lookup of its own gives 4 elements
    from byte 16. *)
Theorem rangeHash_collision :
  let r1 := mkRange 0 33 33 in
  let r2 := mkRange 1 2 1 in
  rangeBounds r1 = (0, 132)%Z
  ∧ rangeBounds r2 = (4, 8)%Z
  ∧ rangeHash r1 = 132%Z
  ∧ rangeHash r2 = 132%Z
  ∧ ∃ view s1 view2 s2,
      getDataRange Sample.quad r1 Sample.ready = (Normal view, s1)
      ∧ getDataRange Sample.quad r2 s1 = (Normal view, s1)
      ∧ (ta_byteOffset view, ta_length view) = (0, 132)%Z
      ∧ getDataRange Sample.quad r2 Sample.ready = (Normal view2, s2)
      ∧ (ta_byteOffset view2, ta_length view2) = (16, 4)%Z.
Proof.
  simpl. repeat (split; [reflexivity|]).
  do 4 eexists.
  split; [vm_compute; reflexivity|].
  split; [vm_compute; reflexivity|].
  split; [reflexivity|].
  split; [vm_compute; reflexivity|].
  reflexivity.
Qed.

(** ** The properties at work on the sample context *)


Lemma uniforms_missing_name_warns_witness :
  fst (uniforms Sample.uniformLocationOf (js "uTime") Sample.ready)
    = Normal None
  ∧ fst (uniforms Sample.uniformLocationOf (js "uColor") Sample.ready)
    = Normal (Some (UniformHandle 7)).
Proof.
  split.
  - destruct (uniforms_missing_name_warns Sample.uniformLocationOf
                (js "uTime") (ProgramHandle 0) Sample.ready) as [H _];
      [reflexivity|].
    rewrite H; reflexivity.
  - destruct (uniforms_missing_name_warns Sample.uniformLocationOf
                (js "uColor") (ProgramHandle 0) Sample.ready) as [_ H];
      [reflexivity|].
    rewrite (H (UniformHandle 7)); reflexivity.
Defined.

Lemma createShader_throws_info_log_witness :
  (∃ s', createShader Sample.compiles Sample.infoLogOf gl.FRAGMENT_SHADER
           (SrcString (js " void main( ")) Sample.ready
         = (Throw (Error (js "ERROR: 0:1: syntax error near void main(")),
            s'))
  ∧ (∃ shaders s',
       createShaders Sample.compiles Sample.infoLogOf
         (mkShaderSources (SrcString (js " void main(){} "))
            (SrcFunction (λ _, js "void main(){}")))
         Sample.ready
       = (Normal shaders, s')).
Proof.
  split.
  - destruct (createShader_throws_info_log Sample.compiles Sample.infoLogOf
                gl.FRAGMENT_SHADER (SrcString (js " void main( "))
                (mkShaderSources (SrcString []) (SrcString []))
                Sample.ready) as (H & _).
    apply H. reflexivity.
  - destruct (createShader_throws_info_log Sample.compiles Sample.infoLogOf
                gl.VERTEX_SHADER (SrcString [])
                (mkShaderSources (SrcString (js " void main(){} "))
                   (SrcFunction (λ _, js "void main(){}")))
                Sample.ready) as (_ & _ & _ & _ & H).
    destruct H as (shaders & s' & H & _); [reflexivity | reflexivity |].
    exists shaders, s'. exact H.
Defined.

Lemma missing_attribute_is_skipped_witness :
  fst (addVertexAttrib Sample.attribLocationOf gl.ARRAY_BUFFER (js "aNormal")
         (λ _ _ _, throw (Error (js "not reached"))) None Sample.ready)
  = Normal (mkVertexAttrib (BufferHandle 0) None).
Proof.
  destruct (missing_attribute_is_skipped Sample.attribLocationOf
              gl.ARRAY_BUFFER (BufferHandle 0) (js "aNormal")
              (λ _ _ _, throw (Error (js "not reached"))) None
              (ProgramHandle 0) Sample.ready) as [_ H];
    [reflexivity | reflexivity |].
  rewrite H. reflexivity.
Defined.

Lemma useProgram_useVao_idempotent_witness :
  useProgram (ProgramHandle 0) Sample.ready = (Normal tt, Sample.ready)
  ∧ trace (snd (useProgram (ProgramHandle 1) Sample.ready))
    = trace Sample.ready ++ [UseProgram (ProgramHandle 1)]
  ∧ trace (snd (useVao (VaoHandle 2) Sample.ready))
    = trace Sample.ready ++ [BindVertexArray (VaoHandle 2)].
Proof.
  destruct (useProgram_useVao_idempotent (ProgramHandle 0) (VaoHandle 2)
              Sample.ready) as (H1 & _ & _ & H4).
  destruct (useProgram_useVao_idempotent (ProgramHandle 1) (VaoHandle 2)
              Sample.ready) as (_ & H2 & _ & _).
  split; [apply H1; reflexivity|].
  split; [rewrite H2; [reflexivity | discriminate]|].
  rewrite H4; [reflexivity | discriminate].
Defined.

Lemma createShader_trims_source_witness :
  createShader Sample.compiles Sample.infoLogOf gl.VERTEX_SHADER
    (SrcString ([32; 9] ++ js "void main(){}" ++ [13; 10])%N) Sample.ready
  = createShader Sample.compiles Sample.infoLogOf gl.VERTEX_SHADER
      (SrcString (js "void main(){}")) Sample.ready.
Proof.
  destruct (createShader_trims_source Sample.compiles Sample.infoLogOf
              gl.VERTEX_SHADER
              (SrcString ([32; 9] ++ js "void main(){}" ++ [13; 10])%N)
              (SrcString (js "void main(){}")) [32; 9]%N [13; 10]%N
              Sample.ready) as (_ & _ & _ & _ & H).
  apply H; reflexivity.
Defined.

Lemma only_binding_changes_tracked_witness :
  currentProgram
    (exec Sample.uniformLocationOf Sample.attribLocationOf Sample.compiles
       Sample.infoLogOf
       (OpAddVertexAttrib gl.ARRAY_BUFFER (js "aPos")
          (attrib 2 (DataValue Sample.positions) 0) None)
       Sample.ready)
  = Some (ProgramHandle 0).
Proof.
  destruct (only_binding_changes_tracked Sample.uniformLocationOf
              Sample.attribLocationOf Sample.compiles Sample.infoLogOf
              (OpAddVertexAttrib gl.ARRAY_BUFFER (js "aPos")
                 (attrib 2 (DataValue Sample.positions) 0) None)
              Sample.ready) as [H _].
  - reflexivity.
  - intros index target usage s. reflexivity.
  - rewrite H. reflexivity.
Defined.

Lemma dispose_releases_handle_once_witness :
  let attribs :=
    [(js "aPos", (gl.ARRAY_BUFFER,
                  attrib 2 (DataValue Sample.positions) 0, None))] in
  let added := addVertexAttribs Sample.attribLocationOf attribs Sample.ready in
  let created :=
    createTexture 3553%Z (Some (UniformHandle 7)) [] (snd added) in
  ∃ res t,
    fst added = Normal res
    ∧ fst created = Normal t
    ∧ trace (snd (deleteAttribs res (snd created)))
      = trace (snd created) ++ [DeleteBuffer (BufferHandle 0)]
    ∧ trace (snd (deleteTextures [t] (snd created)))
      = trace (snd created) ++ [DeleteTexture (TextureHandle 1)].
Proof.
  intros attribs added created.
  eexists _, _.
  split; [reflexivity|]. split; [reflexivity|].
  match goal with
  | |- trace (snd (deleteAttribs ?res _)) = _ ∧
       trace (snd (deleteTextures [?t] _)) = _ =>
      destruct (dispose_releases_handle_once Sample.attribLocationOf
                  attribs Sample.ready (snd added) res
                  3553%Z (Some (UniformHandle 7)) []
                  [t] (snd created)) as (Ha & _ & Ht)
  end.
  destruct Ha as [_ Ha]; [reflexivity|].
  split.
  - rewrite Ha. reflexivity.
  - rewrite Ht; [reflexivity|].
    repeat constructor.
    exists 3553%Z, (Some (UniformHandle 7)), [], (snd added).
    reflexivity.
Defined.

(** * Further properties *)

Section Further.

Variable uniformLocationOf :
  WebGLProgram → JsString → option WebGLUniformLocation.
Variable attribLocationOf : WebGLProgram → JsString → Z.
Variable compiles : GLenum → JsString → bool.
Variable infoLogOf : GLenum → JsString → JsString.

(** ** Programs and vertex arrays *)

Lemma lastUsedProgram_app (t l : list GLCall) :
  lastUsedProgram (t ++ l) =
    fold_left
      (λ bound c, match c with UseProgram p => Some p | _ => bound end)
      l (lastUsedProgram t).
Proof. unfold lastUsedProgram. apply fold_left_app. Qed.

Lemma lastBoundVertexArray_app (t l : list GLCall) :
  lastBoundVertexArray (t ++ l) =
    fold_left
      (λ bound c, match c with BindVertexArray v => Some v | _ => bound end)
      l (lastBoundVertexArray t).
Proof. unfold lastBoundVertexArray. apply fold_left_app. Qed.

Lemma lastBoundBuffer_app (target : GLenum) (t l : list GLCall) :
  lastBoundBuffer target (t ++ l) =
    fold_left
      (λ bound c,
         match c with
         | BindBuffer target' buffer =>
             if decide (target' = target) then buffer else bound
         | _ => bound
         end)
      l (lastBoundBuffer target t).
Proof. unfold lastBoundBuffer. apply fold_left_app. Qed.

(** X1.  [createProgram] never throws (it does not look at the link
    status).  It creates a program, attaches the vertex and then the
    fragment shader, links, and makes the program current, telling the
    context so unless the tracked program already was that object.
    Afterwards [useProgram] on the result does nothing, and [uniforms]
    answers from the new program. *)
Theorem createProgram_makes_current (shaders : GLShaders) (name : JsString)
    (s : State) :
  let program := ProgramHandle (nextHandle s) in
  ∃ s1,
    createProgram shaders s = (Normal program, s1)
    ∧ trace s1 =
        trace s ++
          [ CreateProgram program; AttachShader program (vertex shaders);
            AttachShader program (fragment shaders); LinkProgram program ] ++
          (if decide (currentProgram s = Some program) then []
           else [UseProgram program])
    ∧ currentProgram s1 = Some program
    ∧ currentVao s1 = currentVao s
    ∧ useProgram program s1 = (Normal tt, s1)
    ∧ fst (uniforms uniformLocationOf name s1)
      = Normal (uniformLocationOf program name).
Proof.
  destruct s as [t c n so cp cv no m].
  unfold createProgram, gl_createProgram, useProgram, uniforms,
    gl_getUniformLocation. run.
  destruct (decide (cp = Some (ProgramHandle n))) as [E|E].
  - rewrite decide_False by (intros H; now apply H). run.
    eexists. split; [reflexivity|]. run. subst cp.
    rewrite <- !app_assoc.
    repeat (split; [reflexivity|]).
    rewrite decide_False by (intros H; now apply H).
    split; [reflexivity|]. now destruct (uniformLocationOf _ _).
  - rewrite decide_True by congruence. run.
    eexists. split; [reflexivity|]. run.
    rewrite <- !app_assoc.
    repeat (split; [reflexivity|]).
    rewrite decide_False by (intros H; now apply H).
    split; [reflexivity|]. now destruct (uniformLocationOf _ _).
Qed.

(** X2.  [createVertexArray] binds the new vertex array on the context
    without recording it.  With a vertex array [vao] current, the context
    then has the new array bound while [useVao vao] still makes no call:
    the earlier array is not bound again. *)
Theorem createVertexArray_leaves_useVao_stale
    (vao : WebGLVertexArrayObject) (s : State) :
  currentVao s = Some vao →
  vao ≠ VaoHandle (nextHandle s) →
  ∃ s1,
    createVertexArray s = (Normal (VaoHandle (nextHandle s)), s1)
    ∧ lastBoundVertexArray (trace s1) = Some (VaoHandle (nextHandle s))
    ∧ currentVao s1 = Some vao
    ∧ useVao vao s1 = (Normal tt, s1).
Proof.
  destruct s as [t c n so cp cv no m]. cbn [currentVao nextHandle].
  intros -> Hfresh.
  unfold createVertexArray, gl_createVertexArray, useVao. run.
  eexists. split; [reflexivity|]. run.
  split; [|split; [reflexivity|]].
  - rewrite <- app_assoc, lastBoundVertexArray_app. reflexivity.
  - rewrite decide_False by (intros H; now apply H). reflexivity.
Qed.

Lemma useProgram_current (program : WebGLProgram) (s : State) :
  currentProgram s = Some program → useProgram program s = (Normal tt, s).
Proof.
  destruct s as [t c n so cp cv no m]. cbn [currentProgram]. intros ->.
  unfold useProgram. run.
  now rewrite decide_False by (intros H; now apply H).
Qed.

Lemma useVao_current (vao : WebGLVertexArrayObject) (s : State) :
  currentVao s = Some vao → useVao vao s = (Normal tt, s).
Proof.
  destruct s as [t c n so cp cv no m]. cbn [currentVao]. intros ->.
  unfold useVao. run.
  now rewrite decide_False by (intros H; now apply H).
Qed.

Lemma useProgram_sets (program : WebGLProgram) (s : State) :
  ∃ s1, useProgram program s = (Normal tt, s1)
        ∧ currentProgram s1 = Some program
        ∧ currentVao s1 = currentVao s.
Proof.
  destruct s as [t c n so cp cv no m]. unfold useProgram. run.
  destruct (decide (Some program ≠ cp)) as [H|H]; run.
  - eexists. split; [reflexivity|]. split; reflexivity.
  - apply dec_stable in H. subst cp.
    eexists. split; [reflexivity|]. split; reflexivity.
Qed.

Lemma useVao_sets (vao : WebGLVertexArrayObject) (s : State) :
  ∃ s1, useVao vao s = (Normal tt, s1)
        ∧ currentVao s1 = Some vao
        ∧ currentProgram s1 = currentProgram s.
Proof.
  destruct s as [t c n so cp cv no m]. unfold useVao. run.
  destruct (decide (Some vao ≠ cv)) as [H|H]; run.
  - eexists. split; [reflexivity|]. split; reflexivity.
  - apply dec_stable in H. subst cv.
    eexists. split; [reflexivity|]. split; reflexivity.
Qed.

(** X4.  [use] leaves its program and its vertex array current, and a
    second [use] with the same two makes no call and changes nothing. *)
Theorem use_twice_is_noop
    (program : WebGLProgram) (vao : WebGLVertexArrayObject) (s : State) :
  ∃ s1,
    use program vao s = (Normal tt, s1)
    ∧ currentProgram s1 = Some program
    ∧ currentVao s1 = Some vao
    ∧ use program vao s1 = (Normal tt, s1).
Proof.
  destruct (useProgram_sets program s) as (s0 & Hp & Hcp & _).
  destruct (useVao_sets vao s0) as (s1 & Hv & Hcv & Hcp').
  exists s1. unfold use.
  rewrite (bind_normal _ _ _ _ _ Hp).
  split; [exact Hv|]. split; [congruence|]. split; [exact Hcv|].
  rewrite (bind_normal _ _ s1 tt s1)
    by (apply useProgram_current; congruence).
  now apply useVao_current.
Qed.

(** ** The tracked program and the context stay in step *)

Lemma preserves_ret {A} (I : State → Prop) (a : A) : preserves I (ret a).
Proof. intros s H; exact H. Qed.

Lemma preserves_throw {A} (I : State → Prop) (e : JsError) :
  preserves I (@throw A e).
Proof. intros s H; exact H. Qed.

Lemma preserves_reads {A} (I : State → Prop) (f : State → A) :
  preserves I (reads f).
Proof. intros s H; exact H. Qed.

Lemma preserves_bind_value {A B} (I : State → Prop) (P : A → Prop)
    (m : M A) (k : A → M B) :
  preserves I m →
  (∀ s a s', m s = (Normal a, s') → P a) →
  (∀ a, P a → preserves I (k a)) →
  preserves I (bind m k).
Proof.
  intros Hm HP Hk s Hs. unfold bind.
  specialize (Hm s Hs). destruct (m s) as [[a|e] s1] eqn:E; simpl in Hm.
  - apply (Hk a (HP _ _ _ E)). exact Hm.
  - exact Hm.
Qed.

Lemma preserves_bind {A B} (I : State → Prop) (m : M A) (k : A → M B) :
  preserves I m → (∀ a, preserves I (k a)) → preserves I (bind m k).
Proof.
  intros Hm Hk. apply (preserves_bind_value I (λ _, True)); auto.
Qed.

Lemma preserves_usingResource {A} (I : State → Prop)
    (d : option Disposable) (body : M A) :
  (∀ dispose, d = Some dispose → preserves I dispose) →
  preserves I body → preserves I (usingResource d body).
Proof.
  intros Hd Hbody s Hs. unfold usingResource.
  specialize (Hbody s Hs). destruct (body s) as [r s1]; simpl in Hbody.
  destruct d as [dispose|]; [|exact Hbody].
  specialize (Hd dispose eq_refl s1 Hbody).
  destruct (dispose s1) as [[[]|e] s2]; simpl in Hd; destruct r; exact Hd.
Qed.

Lemma preserves_forOf {A} (I : State → Prop) (l : list A)
    (body : A → M unit) :
  (∀ x, x ∈ l → preserves I (body x)) → preserves I (forOf l body).
Proof.
  induction l as [|x l IH]; intros H; simpl.
  - apply preserves_ret.
  - apply preserves_bind; [apply H; now left|].
    intros _. apply IH. intros y Hy. apply H. now right.
Qed.

Lemma preserves_forIndex (I : State → Prop) (body : nat → M unit) (n : nat) :
  (∀ i, preserves I (body i)) → ∀ i, preserves I (forIndex n i body).
Proof.
  intros H. induction n as [|n IH]; intros i; simpl.
  - apply preserves_ret.
  - apply preserves_bind; [apply H | intros _; apply IH].
Qed.

Lemma sync_call (c : GLCall) :
  (∀ p, c ≠ UseProgram p) → preserves programInSync (call c).
Proof.
  intros Hc [t co n so cp cv no m]. unfold programInSync. run.
  intros H. rewrite lastUsedProgram_app. simpl.
  destruct c; try exact H. now destruct (Hc program).
Qed.

Lemma sync_modify (f : State → State) :
  (∀ s, trace (f s) = trace s ∧ currentProgram (f s) = currentProgram s) →
  preserves programInSync (modify f).
Proof.
  intros Hf s H. unfold programInSync, modify. simpl.
  destruct (Hf s) as [-> ->]. exact H.
Qed.

Lemma sync_console_warn (message name : JsString) :
  preserves programInSync (console_warn message name).
Proof. intros s H; exact H. Qed.

Lemma sync_freshHandle : preserves programInSync freshHandle.
Proof. intros s H; exact H. Qed.

Lemma sync_freshObject : preserves programInSync freshObject.
Proof. intros s H; exact H. Qed.

Lemma sync_useProgram (program : WebGLProgram) :
  preserves programInSync (useProgram program).
Proof.
  intros [t c n so cp cv no m]. unfold programInSync, useProgram. run.
  intros H. destruct (decide (Some program ≠ cp)); run; [|exact H].
  now rewrite lastUsedProgram_app.
Qed.

Lemma sync_useVao (vao : WebGLVertexArrayObject) :
  preserves programInSync (useVao vao).
Proof.
  intros [t c n so cp cv no m]. unfold programInSync, useVao. run.
  intros H. destruct (decide (Some vao ≠ cv)); run; [|exact H].
  now rewrite lastUsedProgram_app.
Qed.

Create HintDb sync.

#[local] Hint Resolve preserves_ret preserves_throw preserves_reads
  sync_console_warn sync_freshHandle sync_freshObject sync_useProgram
  sync_useVao : sync.

(** Takes a straight-line helper apart, statement by statement. *)
Ltac sync :=
  repeat first
    [ solve [auto with sync]
    | apply sync_call; intros; discriminate
    | apply sync_modify; intros; split; reflexivity
    | apply preserves_bind; [|intros ?]
    | progress case_match ].

Lemma sync_bufferDisposables (target : GLenum) (dispose : Disposable) :
  bufferDisposables target = Some dispose → preserves programInSync dispose.
Proof.
  unfold bufferDisposables. case_decide; [|discriminate].
  intros [= <-]. sync.
Qed.

Lemma sync_useBuffer (target : GLBufferTarget) (buffer : WebGLBuffer) :
  preserves programInSync (useBuffer target buffer).
Proof. unfold useBuffer. sync. Qed.

Lemma sync_bindVertexAttribBuffer (target : GLBufferTarget)
    (buffer : WebGLBuffer) (name : JsString) :
  preserves programInSync
    (bindVertexAttribBuffer attribLocationOf target buffer name).
Proof.
  unfold bindVertexAttribBuffer, gl_getAttribLocation, gl_bindAttribLocation.
  sync.
Qed.

Lemma sync_addVertexAttrib (target : GLBufferTarget) (name : JsString)
    (attribFn : GLAttribFn) (usage : option GLBufferUsage) :
  (∀ index target' usage',
     preserves programInSync (attribFn index target' usage')) →
  preserves programInSync
    (addVertexAttrib attribLocationOf target name attribFn usage).
Proof.
  intros Hfn. unfold addVertexAttrib, gl_createBuffer.
  apply preserves_bind; [sync|]. intros buffer.
  apply (preserves_bind_value _ (λ d, d = bufferDisposables target)).
  - apply sync_useBuffer.
  - intros s d s'. apply useBuffer_value.
  - intros d ->. apply preserves_usingResource.
    + apply sync_bufferDisposables.
    + apply preserves_bind; [apply sync_bindVertexAttribBuffer|].
      intros [index|]; [|apply preserves_ret].
      apply preserves_bind; [apply Hfn | intros; apply preserves_ret].
Qed.

Lemma sync_addVertexAttribs_loop
    (entries : list (JsString * GLAttribParam)) :
  (∀ name target attribFn usage,
     (name, (target, attribFn, usage)) ∈ entries →
     ∀ index target' usage',
       preserves programInSync (attribFn index target' usage')) →
  ∀ acc,
    preserves programInSync
      (addVertexAttribs_loop attribLocationOf entries acc).
Proof.
  induction entries as [|[name [[target attribFn] usage]] entries IH];
    intros H acc; simpl.
  - apply preserves_ret.
  - apply preserves_bind.
    + unfold addVertexAttribs_step.
      apply preserves_bind; [|intros; sync].
      apply sync_addVertexAttrib. apply (H name target attribFn usage).
      now left.
    + intros acc'. apply IH. intros n t f u Hin. apply (H n t f u).
      now right.
Qed.

Lemma sync_bufferSubData (a : GLBuffer) (data : TypedArray) (offset : Z) :
  preserves programInSync (bufferSubData a data offset).
Proof.
  unfold bufferSubData.
  apply (preserves_bind_value _
           (λ d, d = bufferDisposables (buffer_target a))).
  - apply sync_useBuffer.
  - intros s d s'. apply useBuffer_value.
  - intros d ->. apply preserves_usingResource;
      [apply sync_bufferDisposables | sync].
Qed.

Lemma sync_getDataRange (a : GLBuffer) (range : Range) :
  preserves programInSync (getDataRange a range).
Proof.
  unfold getDataRange, data_subarray, subarray.
  destruct (rangeBounds range) as [begin end']. sync.
Qed.

Lemma sync_createShader (type : GLenum) (src : ShaderSrc) :
  preserves programInSync (createShader compiles infoLogOf type src).
Proof.
  unfold createShader, gl_createShader, srcText, gl_shaderSource,
    gl_compileShader, gl_getShaderParameter, gl_getShaderInfoLog.
  sync.
Qed.

(** X3.  If the tracked program is the one the context was last told to
    use, it still is after any of the twenty-one functions that this module
    defines itself and [initGL] returns, the binding functions included,
    and after a read of [uniforms], however the operation completes.  This
    is provided the attribute, data and dispose functions its caller hands
    it keep it so; a shader source given as a function only reads, it makes
    no call.  The three other entries of the returned object are not
    covered: [reset], which comes from the vendored gl-reset, and the raw
    [gl] and [canvas].  (The same does not hold of the tracked vertex
    array: see X2.) *)
Theorem program_tracking_stays_in_sync (op : Operation) (s : State) :
  callbacksKeepInSync op →
  programInSync s →
  programInSync
    (exec uniformLocationOf attribLocationOf compiles infoLogOf op s).
Proof.
  intros Hcb. revert s.
  change (preserves programInSync
            (λ s, (Normal tt,
                   exec uniformLocationOf attribLocationOf compiles
                     infoLogOf op s))).
  destruct op; simpl in *; intros s; simpl; revert s.
  - apply preserves_forIndex. intros i. sync.
  - now apply sync_addVertexAttrib.
  - now apply sync_addVertexAttribs_loop.
  - change (preserves programInSync
              (attrib size fnOrData divisor index target usage)).
    unfold attrib. apply preserves_bind; [destruct fnOrData; sync|].
    intros data. sync.
  - apply sync_bindVertexAttribBuffer.
  - apply sync_bufferSubData.
  - change (preserves programInSync (createProgram shaders)).
    unfold createProgram, gl_createProgram. sync.
  - apply sync_createShader.
  - change (preserves programInSync (createShaders compiles infoLogOf src)).
    unfold createShaders.
    apply preserves_bind; [apply sync_createShader|]. intros v.
    apply preserves_bind; [apply sync_createShader|]. intros f. sync.
  - change (preserves programInSync (createTexture target uniform params)).
    unfold createTexture, gl_createTexture.
    apply preserves_bind; [sync|]. intros texture.
    apply preserves_bind; [sync|]. intros _.
    apply preserves_bind; [|intros; sync].
    apply preserves_forOf. intros [name param] _. sync.
  - change (preserves programInSync createVertexArray).
    unfold createVertexArray, gl_createVertexArray. sync.
  - apply preserves_forOf. intros d Hd.
    apply list_elem_of_fmap in Hd as ([name d'] & -> & Hd).
    apply (Hcb _ _ Hd).
  - change (preserves programInSync (deleteShaders shaders)).
    unfold deleteShaders. sync.
  - apply preserves_forOf. exact Hcb.
  - change (preserves programInSync (setBuffer buffer data usage)).
    unfold setBuffer. sync.
  - change (preserves programInSync (uniforms uniformLocationOf name)).
    unfold uniforms, gl_getUniformLocation. sync.
  - change (preserves programInSync (use webglProgram vao)).
    unfold use. sync.
  - change (preserves programInSync (useArrayBuffer buffer)).
    unfold useArrayBuffer. sync.
  - apply sync_useBuffer.
  - apply sync_useProgram.
  - apply sync_useVao.
  - change (preserves programInSync (writeAttribRange attrib0 range)).
    unfold writeAttribRange.
    apply preserves_bind; [apply sync_getDataRange|].
    intros data. apply sync_bufferSubData.
Qed.


(** ** Textures, attributes and buffers *)

Lemma texFloats_elem (name : GLenum) :
  name ∈ texFloats ↔
  name = TEXTURE_MAX_ANISOTROPY_EXT ∨ name = gl.TEXTURE_MAX_LOD
  ∨ name = gl.TEXTURE_MIN_LOD.
Proof.
  unfold texFloats. rewrite !elem_of_union, !elem_of_singleton.
  split; [intros [[H|H]|H] | intros [H|[H|H]]]; auto.
Qed.

(** X5.  [createTexture] never throws.  It creates a texture, binds it to
    the target and sets the parameters in the order [Object.entries]
    enumerates them, which is the ascending order of the enumerants and not
    the order they were written in, one call each: [texParameterf] for the
    maximum anisotropy and the two level-of-detail bounds, [texParameteri]
    for every other name.  The descriptor carries the target and uniform it
    was given and the new texture, which stays bound. *)
Theorem createTexture_routes_parameters (target : GLTextureTarget)
    (uniform : option WebGLUniformLocation) (params : list (GLenum * Z))
    (s : State) :
  entriesOrder params = true →
  let texture := TextureHandle (nextHandle s) in
  ∃ t s1 calls,
    createTexture target uniform params s = (Normal t, s1)
    ∧ texture_target t = target
    ∧ texture_uniform t = uniform
    ∧ texture_texture t = texture
    ∧ trace s1 =
        trace s ++ [CreateTexture texture; BindTexture target texture] ++ calls
    ∧ length calls = length params
    ∧ ∀ i name param, params !! i = Some (name, param) →
        (name = TEXTURE_MAX_ANISOTROPY_EXT ∨ name = gl.TEXTURE_MAX_LOD
         ∨ name = gl.TEXTURE_MIN_LOD →
         calls !! i = Some (TexParameterf target name param))
        ∧ (name ≠ TEXTURE_MAX_ANISOTROPY_EXT → name ≠ gl.TEXTURE_MAX_LOD →
           name ≠ gl.TEXTURE_MIN_LOD →
           calls !! i = Some (TexParameteri target name param)).
Proof.
  intros _ texture. rewrite createTexture_run.
  eexists _, _, _. split; [reflexivity|].
  repeat (split; [reflexivity|]).
  split; [apply length_fmap|].
  intros i name param Hi. rewrite list_lookup_fmap, Hi.
  unfold texParameterCall. simpl. split.
  - intros H. now rewrite decide_True by now apply texFloats_elem.
  - intros H1 H2 H3. rewrite decide_False; [reflexivity|].
    rewrite texFloats_elem. intros [H|[H|H]]; congruence.
Qed.

(** The function [attrib] returns, run on data given as a value. *)
Lemma attrib_value_run (size divisor index : Z) (target : GLBufferTarget)
    (usage : GLBufferUsage) (data : TypedArray) (s : State) :
  attrib size (DataValue data) divisor index target usage s =
    (Normal (Some data),
     set_trace (λ t, t ++ attribCalls size divisor index target usage data) s).
Proof.
  destruct s as [t c n so cp cv no m]. unfold attrib, attribCalls.
  destruct data as [ob ctor bf off len]. run.
  cbn [ta_constructor ta_length].
  destruct (decide (divisor = 0%Z)) as [E|E].
  - rewrite (decide_False (P := divisor ≠ 0%Z)) by (intros H; now apply H).
    destruct ctor; unfold intPointerTypes;
      rewrite ?bool_decide_eq_true_2 by reflexivity;
      rewrite ?bool_decide_eq_false_2 by discriminate;
      run; rewrite <- !app_assoc; reflexivity.
  - rewrite (decide_True (P := divisor ≠ 0%Z)) by assumption.
    destruct ctor; unfold intPointerTypes;
      rewrite ?bool_decide_eq_true_2 by reflexivity;
      rewrite ?bool_decide_eq_false_2 by discriminate;
      run; rewrite <- !app_assoc; reflexivity.
Qed.

(** X6.  The function [attrib] returns, called on data given as a value or
    produced by the data function, sizes the store, uploads the data, sets
    the divisor only when it is not 0, and describes the attribute with the
    integer pointer call and type [INT] for an [Int32Array], with the
    floating pointer call and type [FLOAT] for a [Float32Array], and with
    the floating pointer call and an undefined type for any other typed
    array; it returns the data.  If the data function throws, nothing is
    uploaded and the error is passed on. *)
Theorem attrib_upload_calls (size divisor index : Z)
    (target : GLBufferTarget) (usage : GLBufferUsage)
    (fn : M TypedArray) (data : TypedArray) (e : JsError) (s s0 : State) :
  attrib size (DataValue data) divisor index target usage s =
    (Normal (Some data),
     set_trace (λ t, t ++ attribCalls size divisor index target usage data) s)
  ∧ (fn s = (Normal data, s0) →
     attrib size (DataFunction fn) divisor index target usage s =
       (Normal (Some data),
        set_trace
          (λ t, t ++ attribCalls size divisor index target usage data) s0))
  ∧ (fn s = (Throw e, s0) →
     attrib size (DataFunction fn) divisor index target usage s =
       (Throw e, s0)).
Proof.
  split; [apply attrib_value_run|]. split.
  - intros H. rewrite <- (attrib_value_run size divisor index target usage
                            data s0).
    unfold attrib. now rewrite (bind_normal _ _ _ _ _ H).
  - intros H. unfold attrib. now rewrite (bind_throw _ _ _ _ _ H).
Qed.

(** X7.  After [bufferSubData] the descriptor's buffer is no longer bound if
    its target is the array buffer, and still bound for any other target;
    after [setBuffer] it is bound whatever the target.  Both return. *)
Theorem upload_leaves_binding (a : GLBuffer) (data : TypedArray)
    (offset : Z) (usage : option GLBufferUsage) (s : State) :
  let sub := bufferSubData a data offset s in
  let set := setBuffer a data usage s in
  fst sub = Normal tt
  ∧ lastBoundBuffer (buffer_target a) (trace (snd sub)) =
      (if decide (buffer_target a = gl.ARRAY_BUFFER) then None
       else Some (buffer_buffer a))
  ∧ fst set = Normal tt
  ∧ lastBoundBuffer (buffer_target a) (trace (snd set)) =
      Some (buffer_buffer a).
Proof.
  intros sub set. subst sub set. rewrite bufferSubData_run.
  destruct s as [t c n so cp cv no m]. unfold setBuffer. run.
  split; [reflexivity|]. split; [|split; [reflexivity|]].
  - rewrite lastBoundBuffer_app.
    destruct (decide (buffer_target a = gl.ARRAY_BUFFER)) as [E|E]; simpl.
    + rewrite E. now rewrite !decide_True by reflexivity.
    + now rewrite decide_True by reflexivity.
  - rewrite <- app_assoc, lastBoundBuffer_app. simpl.
    now rewrite decide_True by reflexivity.
Qed.


(** [addVertexAttrib] on a name the program has an attribute for, run up to
    and past the call of the attribute function. *)
Lemma addVertexAttrib_found_run (target : GLBufferTarget) (name : JsString)
    (attribFn : GLAttribFn) (usage : option GLBufferUsage)
    (p : WebGLProgram) (s : State) :
  currentProgram s = Some p →
  attribLocationOf p name ≠ (-1)%Z →
  let buffer := BufferHandle (nextHandle s) in
  let index := attribLocationOf p name in
  let entered :=
    mkState
      (trace s ++
         [ CreateBuffer buffer; BindBuffer target (Some buffer);
           GetAttribLocation p name; BindBuffer target (Some buffer);
           BindAttribLocation p index name; EnableVertexAttribArray index ])
      (console s) (S (nextHandle s)) (shaderObjects s) (currentProgram s)
      (currentVao s) (nextObject s) (memoized s) in
  addVertexAttrib attribLocationOf target name attribFn usage s =
    match attribFn index target (nullish usage gl.STATIC_DRAW) entered with
    | (Normal data, s2) =>
        (Normal (mkVertexAttrib buffer data), releaseBuffer target s2)
    | (Throw e, s2) => (Throw e, releaseBuffer target s2)
    end.
Proof.
  destruct s as [t c n so cp cv no m]. cbn [currentProgram nextHandle].
  intros -> Hloc. cbv zeta.
  unfold addVertexAttrib, useBuffer, bufferDisposables, releaseBuffer.
  destruct (decide (target = gl.ARRAY_BUFFER));
    unfold usingResource, gl_createBuffer, bindVertexAttribBuffer,
      gl_getAttribLocation, gl_bindAttribLocation; run;
    rewrite decide_False by assumption; run;
    rewrite <- !app_assoc; cbn [app];
    match goal with |- context [attribFn ?i ?tg ?u ?st] =>
      destruct (attribFn i tg u st)
        as [[data|err] [t2 c2 n2 so2 cp2 cv2 no2 m2]]
    end; reflexivity.
Qed.

(** [addVertexAttrib] on a name the program has no attribute for, run. *)
Lemma addVertexAttrib_missing_run (target : GLBufferTarget)
    (name : JsString) (attribFn : GLAttribFn) (usage : option GLBufferUsage)
    (p : WebGLProgram) (s : State) :
  currentProgram s = Some p →
  attribLocationOf p name = (-1)%Z →
  addVertexAttrib attribLocationOf target name attribFn usage s =
    (Normal (mkVertexAttrib (BufferHandle (nextHandle s)) None),
     releaseBuffer target
       (mkState
          (trace s ++
             [ CreateBuffer (BufferHandle (nextHandle s));
               BindBuffer target (Some (BufferHandle (nextHandle s)));
               GetAttribLocation p name ])
          (console s ++ [(js "Attribute not found or not in use:", name)])
          (S (nextHandle s)) (shaderObjects s) (currentProgram s)
          (currentVao s) (nextObject s) (memoized s))).
Proof.
  destruct s as [t c n so cp cv no m]. cbn [currentProgram nextHandle].
  intros -> Hloc.
  unfold addVertexAttrib, useBuffer, bufferDisposables, releaseBuffer.
  destruct (decide (target = gl.ARRAY_BUFFER));
    unfold usingResource, gl_createBuffer, bindVertexAttribBuffer,
      gl_getAttribLocation; run; rewrite Hloc;
    rewrite decide_True by reflexivity; run;
    rewrite <- !app_assoc; reflexivity.
Qed.

(** X8.  With a program in use that has the attribute, [addVertexAttrib]
    creates a buffer, binds it, binds the name to the location the program
    reports, enables the array, and calls the attribute function with that
    location, the target and the usage (static draw when none is given).
    Whether the function returns data or throws, the array buffer binding
    is then reset (a buffer bound to any other target stays bound); the
    data comes back beside the buffer, and an error is passed on
    unchanged. *)
Theorem addVertexAttrib_found (target : GLBufferTarget) (name : JsString)
    (attribFn : GLAttribFn) (usage : option GLBufferUsage)
    (p : WebGLProgram) (s : State) :
  currentProgram s = Some p →
  attribLocationOf p name ≠ (-1)%Z →
  let buffer := BufferHandle (nextHandle s) in
  let index := attribLocationOf p name in
  let entered :=
    mkState
      (trace s ++
         [ CreateBuffer buffer; BindBuffer target (Some buffer);
           GetAttribLocation p name; BindBuffer target (Some buffer);
           BindAttribLocation p index name; EnableVertexAttribArray index ])
      (console s) (S (nextHandle s)) (shaderObjects s) (currentProgram s)
      (currentVao s) (nextObject s) (memoized s) in
  addVertexAttrib attribLocationOf target name attribFn usage s =
    match attribFn index target (nullish usage gl.STATIC_DRAW) entered with
    | (Normal data, s2) =>
        (Normal (mkVertexAttrib buffer data), releaseBuffer target s2)
    | (Throw e, s2) => (Throw e, releaseBuffer target s2)
    end.
Proof. apply addVertexAttrib_found_run. Qed.

Lemma usingResource_call {A} (c : GLCall) (body : M A) (s : State) :
  usingResource (Some (call c)) body s =
    (fst (body s), set_trace (λ t, t ++ [c]) (snd (body s))).
Proof.
  unfold usingResource. destruct (body s) as [[a|e] s1]; reflexivity.
Qed.

(** X9.  Whatever the name, the attribute function and the state, with
    or without a program in use, and whether it returns or throws,
    [addVertexAttrib] for the array buffer target ends with no array buffer
    bound. *)
Theorem addVertexAttrib_releases_array_buffer (name : JsString)
    (attribFn : GLAttribFn) (usage : option GLBufferUsage) (s : State) :
  lastBoundBuffer gl.ARRAY_BUFFER
    (trace (snd (addVertexAttrib attribLocationOf gl.ARRAY_BUFFER name
                   attribFn usage s)))
  = None.
Proof.
  unfold addVertexAttrib.
  erewrite bind_normal by reflexivity.
  erewrite bind_normal by reflexivity.
  change (bufferDisposables gl.ARRAY_BUFFER)
    with (Some (call (BindBuffer gl.ARRAY_BUFFER None))).
  rewrite usingResource_call.
  match goal with |- context [set_trace _ (snd ?out)] =>
    destruct out as [res [t c n so cp cv no m]] end.
  run. rewrite lastBoundBuffer_app. reflexivity.
Qed.


(** ** [addVertexAttribs] on attributes set up with [attrib] *)

Lemma record_set_fresh {V} (name : JsString) (v : V) (obj : JsRecord V) :
  name ∉ obj.*1 → record_set name v obj = obj ++ [(name, v)].
Proof.
  induction obj as [|[k w] obj IH]; simpl; [reflexivity|].
  rewrite not_elem_of_cons. intros [Hk Hobj].
  rewrite decide_False by congruence. now rewrite IH.
Qed.

Lemma releaseBuffer_fields (target : GLBufferTarget) (s : State) :
  currentProgram (releaseBuffer target s) = currentProgram s
  ∧ nextHandle (releaseBuffer target s) = nextHandle s
  ∧ nextObject (releaseBuffer target s) = nextObject s.
Proof. unfold releaseBuffer. now case_decide. Qed.

(** One turn of the loop of [addVertexAttribs]. *)
Lemma addVertexAttribs_step_attrib (acc : JsRecord GLBuffer)
    (name : JsString) (a : AttribSpec) (p : WebGLProgram) (s : State) :
  currentProgram s = Some p →
  ∃ s1,
    addVertexAttribs_step attribLocationOf acc (name, attribParam a) s
    = (Normal
         (record_set name
            (descriptorOf (bool_decide (attribLocationOf p name ≠ (-1)%Z))
               (nextObject s) (nextHandle s) a)
            acc),
       s1)
    ∧ currentProgram s1 = Some p
    ∧ nextHandle s1 = S (nextHandle s)
    ∧ nextObject s1 = S (nextObject s).
Proof.
  intros Hp. unfold addVertexAttribs_step, attribParam, descriptorOf.
  destruct (decide (attribLocationOf p name = (-1)%Z)) as [Hloc|Hloc].
  - rewrite (bind_normal _ _ _ _ _
               (addVertexAttrib_missing_run _ _ _ _ p s Hp Hloc)).
    rewrite bool_decide_eq_false_2 by (intros H; now apply H).
    pose proof (releaseBuffer_fields (spec_target a)) as Hrel.
    match goal with |- context [releaseBuffer _ ?st] =>
      destruct (Hrel st) as (H1 & H2 & H3);
      destruct (releaseBuffer (spec_target a) st)
        as [t c n so cp cv no m] eqn:E
    end.
    run. cbn in H1, H2, H3. subst.
    eexists. split; [reflexivity|]. cbn. auto.
  - pose proof (addVertexAttrib_found_run (spec_target a) name
                  (attrib (spec_size a) (DataValue (spec_data a))
                     (spec_divisor a))
                  (Some (nullish (spec_usage a) gl.STATIC_DRAW))
                  p s Hp Hloc) as Hrun.
    cbv zeta in Hrun. rewrite attrib_value_run in Hrun.
    rewrite (bind_normal _ _ _ _ _ Hrun).
    rewrite bool_decide_eq_true_2 by assumption.
    pose proof (releaseBuffer_fields (spec_target a)) as Hrel.
    match goal with |- context [releaseBuffer _ ?st] =>
      destruct (Hrel st) as (H1 & H2 & H3);
      destruct (releaseBuffer (spec_target a) st)
        as [t c n so cp cv no m] eqn:E
    end.
    run. cbn in H1, H2, H3. subst.
    eexists. split; [reflexivity|]. cbn. auto.
Qed.

Lemma addVertexAttribs_loop_attrib (p : WebGLProgram)
    (specs : list (JsString * AttribSpec)) :
  ∀ (acc : JsRecord GLBuffer) (s : State),
  currentProgram s = Some p →
  NoDup specs.*1 →
  (∀ name, name ∈ specs.*1 → name ∉ acc.*1) →
  ∃ s',
    addVertexAttribs_loop attribLocationOf
      ((λ e, (e.1, attribParam e.2)) <$> specs) acc s
    = (Normal
         (acc ++
          imap (λ i e,
                  (e.1,
                   descriptorOf
                     (bool_decide (attribLocationOf p e.1 ≠ (-1)%Z))
                     (nextObject s + i) (nextHandle s + i) e.2))
            specs),
       s').
Proof.
  induction specs as [|[name a] specs IH]; intros acc s Hp Hnd Hacc.
  - simpl. rewrite app_nil_r. eexists. reflexivity.
  - rewrite fmap_cons. cbn [addVertexAttribs_loop fst snd].
    destruct (addVertexAttribs_step_attrib acc name a p s Hp)
      as (s1 & Hstep & Hp1 & Hh & Ho).
    rewrite (bind_normal _ _ _ _ _ Hstep).
    rewrite fmap_cons in Hnd, Hacc. cbn [fst] in Hnd, Hacc.
    apply NoDup_cons in Hnd as [Hname Hnd].
    rewrite record_set_fresh by (apply Hacc; now left).
    destruct (IH (acc ++
                    [(name,
                      descriptorOf
                        (bool_decide (attribLocationOf p name ≠ (-1)%Z))
                        (nextObject s) (nextHandle s) a)])
                 s1 Hp1 Hnd) as (s' & Hloop).
    { intros k Hk. rewrite fmap_app, elem_of_app.
      intros [H|H]; [apply (Hacc k); [now right | exact H]|].
      cbn in H. apply list_elem_of_singleton in H. congruence. }
    exists s'. rewrite Hloop, <- app_assoc, imap_cons. cbn [app fst snd].
    rewrite !Nat.add_0_r.
    erewrite (imap_ext _ (_ ∘ S)); [reflexivity|].
    intros i e _. cbn. rewrite Hh, Ho.
    now rewrite !Nat.add_succ_r.
Qed.

(** X10.  With a program in use, [addVertexAttribs] on attributes set up
    with [attrib] on data values, under names that are all different,
    returns.  The result has one descriptor per attribute, under the same
    names in the same order, each a fresh object with a buffer of its own.
    A descriptor carries its entry's target, the entry's usage or static
    draw when none is given, and, when the program has the attribute, the
    data and its byte offset; when it has not, no data and offset 0. *)
Theorem addVertexAttribs_one_descriptor_per_name (p : WebGLProgram)
    (specs : list (JsString * AttribSpec)) (s : State) :
  currentProgram s = Some p →
  NoDup specs.*1 →
  ∃ s',
    addVertexAttribs attribLocationOf
      ((λ e, (e.1, attribParam e.2)) <$> specs) s
    = (Normal
         (imap (λ i e,
                  (e.1,
                   descriptorOf
                     (bool_decide (attribLocationOf p e.1 ≠ (-1)%Z))
                     (nextObject s + i) (nextHandle s + i) e.2))
            specs),
       s').
Proof.
  intros Hp Hnd. unfold addVertexAttribs.
  destruct (addVertexAttribs_loop_attrib p specs [] s Hp Hnd) as (s' & H).
  - intros name _. apply not_elem_of_nil.
  - exists s'. exact H.
Qed.


(** ** Ranges, views and the memo *)

Lemma toInt32_small (x : Z) :
  (- 2 ^ 31 ≤ x < 2 ^ 31)%Z → toInt32 x = x.
Proof. intros H. unfold toInt32. rewrite Z.mod_small; lia. Qed.

Lemma shl_2_small (x : Z) :
  (- 2 ^ 29 ≤ x < 2 ^ 29)%Z → shl x 2 = (4 * x)%Z.
Proof.
  intros H. unfold shl. change (Z.land 2 31) with 2%Z.
  rewrite (toInt32_small x) by lia.
  rewrite Z.shiftl_mul_pow2 by lia.
  rewrite toInt32_small; lia.
Qed.

(** X11.  On a descriptor with a payload and no view memoized under the
    range's key, for a range whose begin and count are below [2 ^ 29], so
    that their 32-bit shifts by two do not wrap, and which lies inside the
    payload when its begin and count are taken in units of four elements,
    [getDataRange] returns a new view on the payload's array buffer:
    [4 * count] elements from element [4 * begin] of the payload on.  The
    [end] field of the range plays no part. *)
Theorem getDataRange_fresh_view (a : GLBuffer) (range : Range)
    (data : TypedArray) (s : State) :
  buffer_data a = Some data →
  (∀ mem, memoized s !! buffer_object a = Some mem →
          mem !! rangeHash range = None) →
  (0 ≤ range_begin range)%Z →
  (0 ≤ range_count range)%Z →
  (range_begin range < 2 ^ 29)%Z →
  (range_count range < 2 ^ 29)%Z →
  (4 * (range_begin range + range_count range) ≤ ta_length data)%Z →
  ∃ s1,
    getDataRange a range s =
      (Normal
         (mkTypedArray (nextObject s) (ta_constructor data) (ta_buffer data)
            (ta_byteOffset data
             + 4 * range_begin range
               * BYTES_PER_ELEMENT (ta_constructor data))
            (4 * range_count range)),
       s1)
    ∧ nextObject s1 = S (nextObject s).
Proof.
  destruct s as [t c n so cp cv no m]. cbn [memoized nextObject].
  intros Hdata Hmiss Hb Hc Hbw Hcw Hfit.
  unfold getDataRange, data_subarray, subarray, rangeBounds.
  rewrite Hdata, !shl_2_small by lia. run.
  assert (Hview : ∀ st : State,
    (Normal
       (mkTypedArray no (ta_constructor data) (ta_buffer data)
          (ta_byteOffset data
           + (if (4 * range_begin range <? 0)%Z
              then Z.max (ta_length data + 4 * range_begin range) 0
              else Z.min (4 * range_begin range) (ta_length data))
             * BYTES_PER_ELEMENT (ta_constructor data))
          (Z.max
             ((if (4 * range_begin range + 4 * range_count range <? 0)%Z
               then Z.max
                      (ta_length data
                       + (4 * range_begin range + 4 * range_count range)) 0
               else Z.min (4 * range_begin range + 4 * range_count range)
                      (ta_length data))
              - (if (4 * range_begin range <? 0)%Z
                 then Z.max (ta_length data + 4 * range_begin range) 0
                 else Z.min (4 * range_begin range) (ta_length data))) 0)),
     st)
    = (Normal
         (mkTypedArray no (ta_constructor data) (ta_buffer data)
            (ta_byteOffset data
             + 4 * range_begin range
               * BYTES_PER_ELEMENT (ta_constructor data))
            (4 * range_count range)),
       st)).
  { intros st.
    destruct (Z.ltb_spec (4 * range_begin range) 0); [lia|].
    destruct (Z.ltb_spec (4 * range_begin range + 4 * range_count range) 0);
      [lia|].
    rewrite !Z.min_l by lia. rewrite Z.max_l by lia.
    do 3 f_equal. lia. }
  destruct (m !! buffer_object a) as [mem|] eqn:Hmem; run.
  - rewrite (Hmiss mem eq_refl). eexists. split; [apply Hview|reflexivity].
  - rewrite lookup_empty. eexists. split; [apply Hview|reflexivity].
Qed.

(** X12.  Whatever the range, a view [getDataRange] builds (no view being
    memoized under the range's key) looks at the payload's array buffer
    with the payload's element type and lies inside the payload's bytes:
    bounds past the end, negative or wrapped are clamped, never refused. *)
Theorem getDataRange_view_within_payload (a : GLBuffer) (range : Range)
    (data : TypedArray) (s : State) :
  buffer_data a = Some data →
  (∀ mem, memoized s !! buffer_object a = Some mem →
          mem !! rangeHash range = None) →
  (0 ≤ ta_length data)%Z →
  ∃ view s1,
    getDataRange a range s = (Normal view, s1)
    ∧ ta_buffer view = ta_buffer data
    ∧ ta_constructor view = ta_constructor data
    ∧ (0 ≤ ta_length view ≤ ta_length data)%Z
    ∧ ((byteExtent data).1 ≤ (byteExtent view).1)%Z
    ∧ ((byteExtent view).2 ≤ (byteExtent data).2)%Z.
Proof.
  destruct s as [t c n so cp cv no m]. cbn [memoized].
  intros Hdata Hmiss Hlen.
  unfold getDataRange, data_subarray, subarray.
  rewrite Hdata. destruct (rangeBounds range) as [begin end']. run.
  assert (Hin : ∀ object,
    let view :=
      mkTypedArray object (ta_constructor data) (ta_buffer data)
        (ta_byteOffset data
         + (if (begin <? 0)%Z then Z.max (ta_length data + begin) 0
            else Z.min begin (ta_length data))
           * BYTES_PER_ELEMENT (ta_constructor data))
        (Z.max
           ((if (end' <? 0)%Z then Z.max (ta_length data + end') 0
             else Z.min end' (ta_length data))
            - (if (begin <? 0)%Z then Z.max (ta_length data + begin) 0
               else Z.min begin (ta_length data))) 0) in
    ta_buffer view = ta_buffer data
    ∧ ta_constructor view = ta_constructor data
    ∧ (0 ≤ ta_length view ≤ ta_length data)%Z
    ∧ ((byteExtent data).1 ≤ (byteExtent view).1)%Z
    ∧ ((byteExtent view).2 ≤ (byteExtent data).2)%Z).
  { intros object view. subst view. unfold byteExtent.
    cbn [ta_buffer ta_constructor ta_length ta_byteOffset fst snd].
    split; [reflexivity|]. split; [reflexivity|].
    destruct (Z.ltb_spec begin 0), (Z.ltb_spec end' 0);
      destruct (ta_constructor data); cbn [BYTES_PER_ELEMENT]; lia. }
  destruct (m !! buffer_object a) as [mem|] eqn:Hmem; run.
  - rewrite (Hmiss mem eq_refl). eexists _, _. split; [reflexivity|].
    apply Hin.
  - rewrite lookup_empty. eexists _, _. split; [reflexivity|]. apply Hin.
Qed.

(** X13.  Among ranges of fewer than 32 items (begin below 2^28, neither
    negative), the memo's key tells all bounds apart: two such ranges with
    the same key have the same derived bounds. *)
Theorem rangeHash_injective_for_short_ranges (r1 r2 : Range) :
  (0 ≤ range_begin r1 < 2 ^ 28)%Z → (0 ≤ range_count r1 < 32)%Z →
  (0 ≤ range_begin r2 < 2 ^ 28)%Z → (0 ≤ range_count r2 < 32)%Z →
  rangeHash r1 = rangeHash r2 →
  rangeBounds r1 = rangeBounds r2.
Proof.
  intros Hb1 Hc1 Hb2 Hc2. unfold rangeHash, rangeBounds.
  rewrite !shl_2_small by lia. intros H. f_equal; lia.
Qed.

(** X14.  The memo is keyed by the descriptor object and the range alone.
    Once [getDataRange] has returned a view, [setBuffer] with new data does
    not drop it, and a later [getDataRange] through the same descriptor
    object, even with its [data] replaced, returns that earlier view, a
    view of the earlier payload. *)
Theorem memo_survives_setBuffer (a a' : GLBuffer) (range : Range)
    (data' : TypedArray) (usage : option GLBufferUsage)
    (view : TypedArray) (s s1 : State) :
  buffer_object a' = buffer_object a →
  getDataRange a range s = (Normal view, s1) →
  let s2 := snd (setBuffer a' data' usage s1) in
  getDataRange a' range s2 = (Normal view, s2).
Proof.
  intros Hobj Hrun s2.
  destruct (getDataRange_memoizes _ _ _ _ _ Hrun) as (mem & Hmem & Hview & _).
  apply (getDataRange_hit a' range s2 mem); [|exact Hview].
  rewrite Hobj. exact Hmem.
Qed.

(** X15.  [writeAttribRange] uploads the view [getDataRange] gives at
    offset 0 of the buffer, whatever the range's begin, inside a binding of
    the descriptor's buffer that is reset afterwards for the array buffer
    target.  If [getDataRange] throws, as it does on a descriptor with no
    data and nothing memoized, the error is passed on and no call reaches
    the context. *)
Theorem writeAttribRange_uploads_at_offset_zero (a : GLBuffer)
    (range : Range) (s : State) :
  (∀ view s1,
     getDataRange a range s = (Normal view, s1) →
     writeAttribRange a range s =
       (Normal tt,
        set_trace
          (λ t, t ++
             [ BindBuffer (buffer_target a) (Some (buffer_buffer a));
               BufferSubData (buffer_target a) 0 view ] ++
             (if decide (buffer_target a = gl.ARRAY_BUFFER)
              then [BindBuffer gl.ARRAY_BUFFER None] else []))
          s1))
  ∧ (buffer_data a = None →
     (∀ mem, memoized s !! buffer_object a = Some mem →
             mem !! rangeHash range = None) →
     ∃ s1,
       writeAttribRange a range s =
         (Throw (TypeError (js "Cannot read properties of undefined")), s1)
       ∧ trace s1 = trace s).
Proof.
  split.
  - intros view s1 Hrun. unfold writeAttribRange.
    rewrite (bind_normal _ _ _ _ _ Hrun). apply bufferSubData_run.
  - destruct s as [t c n so cp cv no m]. cbn [memoized].
    intros Hdata Hmiss.
    unfold writeAttribRange, getDataRange, data_subarray.
    rewrite Hdata. destruct (rangeBounds range) as [begin end']. run.
    destruct (m !! buffer_object a) as [mem|] eqn:Hmem; run.
    + rewrite (Hmiss mem eq_refl). eexists. split; reflexivity.
    + rewrite lookup_empty. eexists. split; reflexivity.
Qed.


(** ** Shaders and uniforms, again *)

(** X16.  When the vertex text compiles and the fragment text does not,
    [createShaders] throws the fragment shader's info log and deletes
    nothing: among the calls it made there is no [gl.deleteShader], and the
    context still holds the compiled vertex shader, whose handle the caller
    never receives. *)
Theorem createShaders_failure_keeps_vertex_shader
    (srcs : ShaderSources) (s : State) :
  let s1 := snd (createShader compiles infoLogOf gl.VERTEX_SHADER
                   (src_vertex srcs) s) in
  let tv := compiledText gl.VERTEX_SHADER (src_vertex srcs) s in
  let tf := compiledText gl.FRAGMENT_SHADER (src_fragment srcs) s1 in
  compiles gl.VERTEX_SHADER tv = true →
  compiles gl.FRAGMENT_SHADER tf = false →
  ∃ s' calls,
    createShaders compiles infoLogOf srcs s =
      (Throw (Error (infoLogOf gl.FRAGMENT_SHADER tf)), s')
    ∧ shaderObjects s' !! nextHandle s =
        Some (mkShaderObject gl.VERTEX_SHADER tv true
                (infoLogOf gl.VERTEX_SHADER tv))
    ∧ trace s' = trace s ++ calls
    ∧ ∀ shader, DeleteShader shader ∉ calls.
Proof.
  intros s1 tv tf. subst s1 tv tf.
  unfold createShaders, bind.
  rewrite (createShader_run compiles infoLogOf gl.VERTEX_SHADER).
  cbn [fst snd]. intros Hv. rewrite Hv.
  rewrite (createShader_run compiles infoLogOf gl.FRAGMENT_SHADER).
  cbn [fst snd nextHandle trace]. intros Hf. rewrite Hf.
  eexists _, _. split; [reflexivity|]. cbn [shaderObjects trace].
  split; [|split].
  - rewrite lookup_insert_ne by lia. apply lookup_insert_eq.
  - rewrite <- app_assoc. reflexivity.
  - intros shader H. rewrite !elem_of_app, !elem_of_cons in H.
    rewrite !elem_of_nil in H. intuition discriminate.
Qed.

(** X17.  The [uniforms] map keeps nothing: with a program in use, reading
    the same name twice asks the context for the location twice and gives
    the same answer twice, and for a name the program has not, warns
    twice. *)
Theorem uniforms_asks_every_time (name : JsString) (p : WebGLProgram)
    (s : State) :
  currentProgram s = Some p →
  ∃ s1 s2,
    uniforms uniformLocationOf name s
      = (Normal (uniformLocationOf p name), s1)
    ∧ uniforms uniformLocationOf name s1
      = (Normal (uniformLocationOf p name), s2)
    ∧ trace s2 =
        trace s ++ [GetUniformLocation p name; GetUniformLocation p name]
    ∧ console s2 =
        console s ++
          match uniformLocationOf p name with
          | Some _ => []
          | None => [ (js "Uniform not found or not in use:", name);
                      (js "Uniform not found or not in use:", name) ]
          end.
Proof.
  destruct s as [t c n so cp cv no m]. cbn [currentProgram]. intros ->.
  unfold uniforms, gl_getUniformLocation. run.
  destruct (uniformLocationOf p name) as [location|] eqn:E; run;
    (eexists _, _; split; [reflexivity|]); run; rewrite E; run;
    (split; [reflexivity|]); cbn [trace console];
    rewrite <- !app_assoc; split; try reflexivity.
  now rewrite app_nil_r.
Qed.


End Further.

(** ** The further properties at work on the sample context *)

Lemma createVertexArray_leaves_useVao_stale_witness :
  let s := snd (useVao (VaoHandle 9) Sample.ready) in
  ∃ s1,
    createVertexArray s = (Normal (VaoHandle 0), s1)
    ∧ lastBoundVertexArray (trace s1) = Some (VaoHandle 0)
    ∧ useVao (VaoHandle 9) s1 = (Normal tt, s1).
Proof.
  intros s.
  destruct (createVertexArray_leaves_useVao_stale (VaoHandle 9) s)
    as (s1 & H1 & H2 & _ & H3); [reflexivity | discriminate |].
  exists s1. split; [exact H1|]. split; [exact H2 | exact H3].
Defined.

Lemma program_tracking_stays_in_sync_witness :
  programInSync
    (exec Sample.uniformLocationOf Sample.attribLocationOf Sample.compiles
       Sample.infoLogOf (OpUse (ProgramHandle 3) (VaoHandle 1)) Sample.ready).
Proof.
  apply program_tracking_stays_in_sync; [exact I | reflexivity].
Defined.

Lemma createTexture_routes_parameters_witness :
  ∃ t s1 (calls : list GLCall),
    createTexture 3553%Z None
      [(10241%Z, 9729%Z); (gl.TEXTURE_MAX_LOD, 4%Z)] Sample.ready
    = (Normal t, s1)
    ∧ trace s1 =
        trace Sample.ready
        ++ [CreateTexture (TextureHandle 0);
            BindTexture 3553 (TextureHandle 0)] ++ calls
    ∧ calls !! 0 = Some (TexParameteri 3553 10241 9729)
    ∧ calls !! 1 = Some (TexParameterf 3553 gl.TEXTURE_MAX_LOD 4).
Proof.
  destruct (createTexture_routes_parameters 3553%Z None
              [(10241%Z, 9729%Z); (gl.TEXTURE_MAX_LOD, 4%Z)] Sample.ready)
    as (t & s1 & calls & H & _ & _ & _ & Htrace & _ & Hcalls);
    [reflexivity|].
  exists t, s1, calls. split; [exact H|]. split; [exact Htrace|]. split.
  - destruct (Hcalls 0 10241%Z 9729%Z eq_refl) as [_ Hi].
    apply Hi; discriminate.
  - destruct (Hcalls 1 gl.TEXTURE_MAX_LOD 4%Z eq_refl) as [Hf _].
    apply Hf. right; left; reflexivity.
Defined.

Lemma attrib_upload_calls_witness :
  fst (attrib 2 (DataFunction (ret Sample.positions)) 0 0%Z
         gl.ARRAY_BUFFER gl.STATIC_DRAW Sample.ready)
  = Normal (Some Sample.positions)
  ∧ attrib 2 (DataFunction (throw (Error (js "no data")))) 0 0%Z
      gl.ARRAY_BUFFER gl.STATIC_DRAW Sample.ready
    = (Throw (Error (js "no data")), Sample.ready).
Proof.
  split.
  - destruct (attrib_upload_calls 2 0 0 gl.ARRAY_BUFFER gl.STATIC_DRAW
                (ret Sample.positions) Sample.positions
                (Error (js "no data")) Sample.ready Sample.ready)
      as (_ & H & _).
    rewrite H; reflexivity.
  - destruct (attrib_upload_calls 2 0 0 gl.ARRAY_BUFFER gl.STATIC_DRAW
                (throw (Error (js "no data"))) Sample.positions
                (Error (js "no data")) Sample.ready Sample.ready)
      as (_ & _ & H).
    apply H. reflexivity.
Defined.

Lemma addVertexAttrib_found_witness :
  fst (addVertexAttrib Sample.attribLocationOf gl.ARRAY_BUFFER (js "aPos")
         (attrib 2 (DataValue Sample.positions) 0) None Sample.ready)
  = Normal (mkVertexAttrib (BufferHandle 0) (Some Sample.positions)).
Proof.
  pose proof (addVertexAttrib_found Sample.attribLocationOf gl.ARRAY_BUFFER
                (js "aPos") (attrib 2 (DataValue Sample.positions) 0) None
                (ProgramHandle 0) Sample.ready) as E.
  cbv zeta in E.
  rewrite E; [reflexivity | reflexivity | vm_compute; discriminate].
Defined.

Lemma addVertexAttribs_one_descriptor_per_name_witness :
  ∃ res s',
    addVertexAttribs Sample.attribLocationOf
      [ (js "aPos",
         attribParam (mkAttribSpec gl.ARRAY_BUFFER 2 Sample.positions 0 None));
        (js "aNormal",
         attribParam (mkAttribSpec gl.ARRAY_BUFFER 3 Sample.positions 1 None))
      ] Sample.ready
    = (Normal res, s')
    ∧ res.*1 = [js "aPos"; js "aNormal"]
    ∧ buffer_data <$> res.*2 = [Some Sample.positions; None]
    ∧ buffer_object <$> res.*2 = [0; 1].
Proof.
  destruct (addVertexAttribs_one_descriptor_per_name
              Sample.attribLocationOf (ProgramHandle 0)
              [ (js "aPos",
                 mkAttribSpec gl.ARRAY_BUFFER 2 Sample.positions 0 None);
                (js "aNormal",
                 mkAttribSpec gl.ARRAY_BUFFER 3 Sample.positions 1 None) ]
              Sample.ready) as (s' & H).
  - reflexivity.
  - cbn. apply NoDup_cons. split; [|apply NoDup_singleton].
    rewrite list_elem_of_singleton. intros H. vm_compute in H.
    discriminate H.
  - eexists _, s'. split; [exact H|]. repeat split; reflexivity.
Defined.

Lemma getDataRange_fresh_view_witness :
  ∃ s1,
    getDataRange Sample.quad (mkRange 2 6 4) Sample.ready
    = (Normal (mkTypedArray 0 Float32Array 0 32 16), s1).
Proof.
  destruct (getDataRange_fresh_view Sample.quad (mkRange 2 6 4)
              Sample.positions Sample.ready) as (s1 & H & _).
  - reflexivity.
  - intros mem H. vm_compute in H. discriminate H.
  - simpl; lia.
  - simpl; lia.
  - simpl; lia.
  - simpl; lia.
  - simpl; lia.
  - exists s1. exact H.
Defined.

Lemma getDataRange_view_within_payload_witness :
  ∃ view s1,
    getDataRange Sample.quad (mkRange 1000 0 5000) Sample.ready
    = (Normal view, s1)
    ∧ (0 ≤ ta_length view ≤ 1024)%Z.
Proof.
  destruct (getDataRange_view_within_payload Sample.quad
              (mkRange 1000 0 5000) Sample.positions Sample.ready)
    as (view & s1 & H & _ & _ & Hlen & _).
  - reflexivity.
  - intros mem H. vm_compute in H. discriminate H.
  - simpl; lia.
  - exists view, s1. split; [exact H | exact Hlen].
Defined.

Lemma rangeHash_injective_for_short_ranges_witness :
  rangeBounds (mkRange 3 8 5) = rangeBounds (mkRange 3 0 5).
Proof.
  apply rangeHash_injective_for_short_ranges;
    first [reflexivity | simpl; lia].
Defined.

Lemma memo_survives_setBuffer_witness :
  let replaced :=
    mkGLBuffer 1 gl.ARRAY_BUFFER gl.STATIC_DRAW (BufferHandle 1)
      (Some (mkTypedArray 7 Float32Array 3 0 64)) 0
      (call (DeleteBuffer (BufferHandle 1))) in
  let view := mkTypedArray 0 Float32Array 0 32 16 in
  let s1 := snd (getDataRange Sample.quad (mkRange 2 6 4) Sample.ready) in
  getDataRange Sample.quad (mkRange 2 6 4) Sample.ready = (Normal view, s1)
  ∧ fst (getDataRange replaced (mkRange 2 6 4)
           (snd (setBuffer replaced (mkTypedArray 7 Float32Array 3 0 64)
                   None s1)))
    = Normal view.
Proof.
  intros replaced view s1.
  assert (Hrun : getDataRange Sample.quad (mkRange 2 6 4) Sample.ready
                 = (Normal view, s1)) by (vm_compute; reflexivity).
  split; [exact Hrun|].
  pose proof (memo_survives_setBuffer Sample.quad replaced (mkRange 2 6 4)
                (mkTypedArray 7 Float32Array 3 0 64) None view Sample.ready
                s1 eq_refl Hrun) as H.
  cbv zeta in H. rewrite H. reflexivity.
Defined.

Lemma writeAttribRange_uploads_at_offset_zero_witness :
  ∃ s1,
    writeAttribRange Sample.hollow (mkRange 2 6 4) Sample.ready
    = (Throw (TypeError (js "Cannot read properties of undefined")), s1)
    ∧ trace s1 = trace Sample.ready.
Proof.
  destruct (writeAttribRange_uploads_at_offset_zero Sample.hollow
              (mkRange 2 6 4) Sample.ready) as [_ H].
  apply H.
  - reflexivity.
  - intros mem Hmem. vm_compute in Hmem. discriminate Hmem.
Defined.

Lemma createShaders_failure_keeps_vertex_shader_witness :
  fst (createShaders Sample.compiles Sample.infoLogOf
         (mkShaderSources (SrcString (js " void main(){} "))
            (SrcString (js "broken")))
         Sample.ready)
  = Throw (Error (js "ERROR: 0:1: syntax error near broken")).
Proof.
  destruct (createShaders_failure_keeps_vertex_shader Sample.compiles
              Sample.infoLogOf
              (mkShaderSources (SrcString (js " void main(){} "))
                 (SrcString (js "broken")))
              Sample.ready) as (s' & calls & H & _);
    [reflexivity | reflexivity |].
  rewrite H. reflexivity.
Defined.

Lemma uniforms_asks_every_time_witness :
  ∃ s1 s2,
    uniforms Sample.uniformLocationOf (js "uTime") Sample.ready
    = (Normal None, s1)
    ∧ uniforms Sample.uniformLocationOf (js "uTime") s1 = (Normal None, s2)
    ∧ length (console s2) = 2.
Proof.
  destruct (uniforms_asks_every_time Sample.uniformLocationOf (js "uTime")
              (ProgramHandle 0) Sample.ready)
    as (s1 & s2 & H1 & H2 & _ & Hc); [reflexivity|].
  exists s1, s2. split; [exact H1|]. split; [exact H2|].
  rewrite Hc. reflexivity.
Defined.
